(** * ot-sca: capture timing and uJSON command channel

    A shallow embedding of
      - [capture/scopes/chipwhisperer/husky.py]   (class [Husky]) and
      - [target/communication/sca_ml_dsa_commands.py] (class [OTMLDSA]),
    together with the Python built-ins these two files rely on: text
    search and [split], the [json] codec, and [int] and [float]
    arithmetic.  Loops carry a [fuel] and answer [None] when it runs out;
    exceptions are the [Raise] results.  The definitions come first, the
    properties of the capture controller, of the command channel and of
    the clock plan follow. *)

From Stdlib Require Import ZArith QArith Qround Qreduction Qpower Qabs.
From Stdlib Require Qcanon.
From Stdlib Require Import SpecFloat.
From Stdlib Require Import Morphisms.
From Stdlib Require Import List String Ascii Bool Lia DecimalString.
Import ListNotations.

Local Open Scope string_scope.
Local Open Scope Z_scope.

(** ** Python built-ins on [str] *)

Module Py.

(** [s[n:]] *)
Fixpoint drop (n : nat) (s : string) : string :=
  match n, s with
  | O, _ => s
  | S _, EmptyString => EmptyString
  | S k, String _ s' => drop k s'
  end.

(** [s[:n]] *)
Fixpoint take (n : nat) (s : string) : string :=
  match n, s with
  | O, _ => EmptyString
  | S _, EmptyString => EmptyString
  | S k, String c s' => String c (take k s')
  end.

(** [s.find(sub)]: index of the leftmost occurrence, [None] for -1. *)
Fixpoint find (sub s : string) : option nat :=
  if prefix sub s then Some O
  else match s with
       | EmptyString => None
       | String _ s' => option_map S (find sub s')
       end.

(** [sub in s] *)
Definition contains (sub s : string) : bool :=
  match find sub s with Some _ => true | None => false end.

(** [s.split(sep)] for a non-empty separator: the text is cut at the
    leftmost occurrence of [sep], and the search resumes behind it. *)
Fixpoint split_from (fuel : nat) (sep s : string) : list string :=
  match fuel with
  | O => [s]
  | S f =>
      match find sep s with
      | None => [s]
      | Some i => take i s :: split_from f sep (drop (i + String.length sep) s)
      end
  end.

Definition split (sep s : string) : list string :=
  split_from (S (String.length s)) sep s.

(** [c in s] for a character *)
Fixpoint occurs (c : ascii) (s : string) : bool :=
  match s with
  | EmptyString => false
  | String a s' => if Ascii.eqb a c then true else occurs c s'
  end.

(** The double quote, which string literals of this file never contain. *)
Definition dq : string := String "034"%char EmptyString.

End Py.

(** ** Exceptions and results *)

Inductive exn : Type :=
| Exception (msg : string)
| RuntimeError (msg : string)
| IndexError
| AttributeError
| UnicodeEncodeError
| ZeroDivisionError
| OverflowError.

Inductive outcome (A : Type) : Type :=
| Ok (a : A)
| Raise (e : exn).
Arguments Ok {A} a.
Arguments Raise {A} e.

(** ** Python objects exchanged with the [json] module *)

(** A [str] inside an object is its sequence of code points. *)
Definition pystr : Type := list N.

Definition str (s : string) : pystr := map N_of_ascii (list_ascii_of_string s).

Definition pystr_eqb (a b : pystr) : bool :=
  if list_eq_dec N.eq_dec a b then true else false.

#[warnings="-register-all"] Inductive pyobj : Type :=
| PyNone
| PyBool (b : bool)
| PyInt (z : Z)
| PyFloat (literal : string)
| PyStr (s : pystr)
| PyList (items : list pyobj)
| PyDict (items : list (pystr * pyobj)).

(** [d[key] = v] on the items of a [dict]: an existing key keeps its
    position, a new key goes last. *)
Fixpoint dict_set (key : pystr) (v : pyobj) (d : list (pystr * pyobj))
  : list (pystr * pyobj) :=
  match d with
  | [] => [(key, v)]
  | (k, w) :: d' =>
      if pystr_eqb k key then (k, v) :: d' else (k, w) :: dict_set key v d'
  end.

Fixpoint dict_get (key : pystr) (d : list (pystr * pyobj)) : option pyobj :=
  match d with
  | [] => None
  | (k, w) :: d' => if pystr_eqb k key then Some w else dict_get key d'
  end.

(** [o[key]] for a [str] key: [KeyError] on a [dict] without the key and
    [TypeError] on every other object are both [None]. *)
Definition getitem (o : pyobj) (key : pystr) : option pyobj :=
  match o with
  | PyDict d => dict_get key d
  | _ => None
  end.

(** ** The serial target *)

Inductive event : Type :=
| Write (frame : string)
| Sleep (milliseconds : Z)
| Print (text : string).

(** [rx n] is the text [str(self.target.readline())] of the [n]-th call,
    [done n] the answer of the [n]-th call of [target.is_done()]. *)
Record target : Type := {
  rx : nat -> string;
  rd : nat;
  done : nat -> bool;
  polls : nat;
  log : list event
}.

Definition emit (e : event) (t : target) : target :=
  {| rx := rx t; rd := rd t; done := done t; polls := polls t;
     log := log t ++ [e] |}.

Definition readline (t : target) : string * target :=
  (rx t (rd t),
   {| rx := rx t; rd := S (rd t); done := done t; polls := polls t;
      log := log t |}).

Definition is_done (t : target) : bool * target :=
  (done t (polls t),
   {| rx := rx t; rd := rd t; done := done t; polls := S (polls t);
      log := log t |}).

(** The target after [k] more lines have been read. *)
Definition skip_lines (k : nat) (t : target) : target :=
  {| rx := rx t; rd := rd t + k; done := done t; polls := polls t;
     log := log t |}.

Definition write (frame : string) (t : target) : target := emit (Write frame) t.
Definition sleep (ms : Z) (t : target) : target := emit (Sleep ms) t.
Definition print (text : string) (t : target) : target := emit (Print text) t.

(** [s.encode("ascii")] *)
Definition is_ascii (c : ascii) : bool := (nat_of_ascii c <? 128)%nat.

Definition encode_ascii (s : string) : outcome string :=
  if forallb is_ascii (list_ascii_of_string s) then Ok s
  else Raise UnicodeEncodeError.

(** ** Reference codec: [json.dumps] and [json.loads] with their defaults

    The [json] module is a collaborator of the sources, which are embedded
    below over an arbitrary codec; this one instantiates them on concrete
    texts.  A [float] is kept as the literal that denotes it. *)

Module Json.

Definition hex_digit (n : N) : ascii :=
  ascii_of_N (if (n <? 10)%N then 48 + n else 87 + n)%N.

(** [format(n, "04x")] for [n < 0x10000] *)
Definition hex4 (n : N) : string :=
  String (hex_digit (N.shiftr n 12 mod 16))
    (String (hex_digit (N.shiftr n 8 mod 16))
      (String (hex_digit (N.shiftr n 4 mod 16))
        (String (hex_digit (n mod 16)) EmptyString))).

Definition escape (c : N) : string :=
  if (c =? 34)%N then "\" ++ Py.dq
  else if (c =? 92)%N then "\\"
  else if (c =? 10)%N then "\n"
  else if (c =? 13)%N then "\r"
  else if (c =? 9)%N then "\t"
  else if (c =? 8)%N then "\b"
  else if (c =? 12)%N then "\f"
  else if ((32 <=? c) && (c <=? 126))%N then String (ascii_of_N c) EmptyString
  else if (c <? 65536)%N then "\u" ++ hex4 c
  else let n := (c - 65536)%N in
       "\u" ++ hex4 (N.lor 55296 (N.shiftr n 10 mod 1024))
       ++ "\u" ++ hex4 (N.lor 56320 (n mod 1024)).

Definition dumps_str (s : pystr) : string :=
  Py.dq ++ fold_right (fun c acc => escape c ++ acc) "" s ++ Py.dq.

Fixpoint dumps (o : pyobj) : string :=
  match o with
  | PyNone => "null"
  | PyBool true => "true"
  | PyBool false => "false"
  | PyInt z => NilZero.string_of_int (Z.to_int z)
  | PyFloat literal => literal
  | PyStr s => dumps_str s
  | PyList l =>
      "[" ++ (fix join (l : list pyobj) : string :=
                match l with
                | [] => ""
                | x :: r =>
                    match r with
                    | [] => dumps x
                    | _ :: _ => dumps x ++ ", " ++ join r
                    end
                end) l ++ "]"
  | PyDict d =>
      "{" ++ (fix join (d : list (pystr * pyobj)) : string :=
                match d with
                | [] => ""
                | (k, v) :: r =>
                    match r with
                    | [] => dumps_str k ++ ": " ++ dumps v
                    | _ :: _ => dumps_str k ++ ": " ++ dumps v ++ ", " ++ join r
                    end
                end) d ++ "}"
  end.

(** *** Decoding *)

Definition is_ws (c : ascii) : bool :=
  let n := nat_of_ascii c in
  ((n =? 32) || (n =? 9) || (n =? 10) || (n =? 13))%nat.

Fixpoint skip_ws (s : string) : string :=
  match s with
  | String c s' => if is_ws c then skip_ws s' else s
  | EmptyString => s
  end.

Definition is_digit (c : ascii) : bool :=
  let n := nat_of_ascii c in ((48 <=? n) && (n <=? 57))%nat.

(** The longest prefix of digits and what follows it. *)
Fixpoint span_digits (s : string) : string * string :=
  match s with
  | String c s' =>
      if is_digit c then let (d, r) := span_digits s' in (String c d, r)
      else (EmptyString, s)
  | EmptyString => (EmptyString, s)
  end.

Definition digits_value (d : string) : Z :=
  fold_left (fun acc c => 10 * acc + (Z.of_nat (nat_of_ascii c) - 48))
            (list_ascii_of_string d) 0.

Definition hex_value (c : ascii) : option N :=
  let n := N_of_ascii c in
  if ((48 <=? n) && (n <=? 57))%N then Some (n - 48)%N
  else if ((97 <=? n) && (n <=? 102))%N then Some (n - 87)%N
  else if ((65 <=? n) && (n <=? 70))%N then Some (n - 55)%N
  else None.

(** The four hexadecimal digits behind [\u]. *)
Definition scan_hex4 (s : string) : option (N * string) :=
  match s with
  | String a (String b (String c (String d r))) =>
      match hex_value a, hex_value b, hex_value c, hex_value d with
      | Some x, Some y, Some z, Some w =>
          Some ((((x * 16 + y) * 16 + z) * 16 + w)%N, r)
      | _, _, _, _ => None
      end
  | _ => None
  end.

Definition simple_escape (c : ascii) : option N :=
  let n := N_of_ascii c in
  if (n =? 34)%N then Some 34%N
  else if (n =? 92)%N then Some 92%N
  else if (n =? 47)%N then Some 47%N
  else if (n =? 98)%N then Some 8%N
  else if (n =? 102)%N then Some 12%N
  else if (n =? 110)%N then Some 10%N
  else if (n =? 114)%N then Some 13%N
  else if (n =? 116)%N then Some 9%N
  else None.

(** A high surrogate directly followed by an escaped low surrogate. *)
Definition scan_unicode (s : string) : option (N * string) :=
  match scan_hex4 s with
  | None => None
  | Some (u, r) =>
      if ((55296 <=? u) && (u <=? 56319))%N then
        match r with
        | String "\"%char (String "u"%char r') =>
            match scan_hex4 r' with
            | Some (u2, r'') =>
                if ((56320 <=? u2) && (u2 <=? 57343))%N
                then Some ((65536 + ((u - 55296) * 1024 + (u2 - 56320)))%N, r'')
                else Some (u, r)
            | None => Some (u, r)
            end
        | _ => Some (u, r)
        end
      else Some (u, r)
  end.

(** The text behind an opening quote, up to the closing one. *)
Fixpoint scan_string (fuel : nat) (s : string) : option (pystr * string) :=
  match fuel with
  | O => None
  | S f =>
      match s with
      | EmptyString => None
      | String c s' =>
          let n := N_of_ascii c in
          if (n =? 34)%N then Some ([], s')
          else if (n =? 92)%N then
            match s' with
            | EmptyString => None
            | String e s'' =>
                if (N_of_ascii e =? 117)%N then
                  match scan_unicode s'' with
                  | Some (u, r) =>
                      match scan_string f r with
                      | Some (cs, r') => Some (u :: cs, r')
                      | None => None
                      end
                  | None => None
                  end
                else
                  match simple_escape e with
                  | Some u =>
                      match scan_string f s'' with
                      | Some (cs, r') => Some (u :: cs, r')
                      | None => None
                      end
                  | None => None
                  end
            end
          else if (n <? 32)%N then None
          else
            match scan_string f s' with
            | Some (cs, r') => Some (n :: cs, r')
            | None => None
            end
      end
  end.

Definition is_empty (s : string) : bool :=
  match s with EmptyString => true | String _ _ => false end.

(** A number: an optional minus sign, then a single zero or a digit
    string that does not start with zero; then, optionally, a dot with at
    least one digit; then, optionally, [e] or [E], an optional sign and at
    least one digit.  It is an [int] when neither the fraction nor the
    exponent is there. *)
Definition scan_number (s : string) : option (pyobj * string) :=
  let '(neg, s1) :=
    match s with
    | String "-"%char r => (true, r)
    | _ => (false, s)
    end in
  let '(ip, s2) :=
    match s1 with
    | String "0"%char r => ("0", r)
    | _ => span_digits s1
    end in
  if is_empty ip then None
  else
    let '(frac, s3) :=
      match s2 with
      | String "."%char r =>
          let (d, r') := span_digits r in
          if is_empty d then ("", s2) else (String "."%char d, r')
      | _ => ("", s2)
      end in
    let '(ex, s4) :=
      match s3 with
      | String e r =>
          if (Ascii.eqb e "e" || Ascii.eqb e "E")%bool then
            let '(sg, r1) :=
              match r with
              | String g r' =>
                  if (Ascii.eqb g "+" || Ascii.eqb g "-")%bool
                  then (String g EmptyString, r') else ("", r)
              | EmptyString => ("", r)
              end in
            let (d, r2) := span_digits r1 in
            if is_empty d then ("", s3) else (String e (sg ++ d), r2)
          else ("", s3)
      | EmptyString => ("", s3)
      end in
    if (is_empty frac && is_empty ex)%bool
    then Some (PyInt (if neg then - digits_value ip else digits_value ip), s4)
    else Some (PyFloat ((if neg then "-" else "") ++ ip ++ frac ++ ex), s4).

Definition scan_constant (s : string) : option (pyobj * string) :=
  if prefix "null" s then Some (PyNone, Py.drop 4 s)
  else if prefix "true" s then Some (PyBool true, Py.drop 4 s)
  else if prefix "false" s then Some (PyBool false, Py.drop 5 s)
  else
    match scan_number s with
    | Some r => Some r
    | None =>
        if prefix "NaN" s then Some (PyFloat "NaN", Py.drop 3 s)
        else if prefix "Infinity" s then Some (PyFloat "Infinity", Py.drop 8 s)
        else if prefix "-Infinity" s then Some (PyFloat "-Infinity", Py.drop 9 s)
        else None
    end.

(** [scan_once] reads one value; [scan_items] the items of an array from
    its first value on; [scan_pairs] the members of an object from behind
    the opening quote of a key on. *)
Fixpoint scan_once (fuel : nat) (s : string) : option (pyobj * string) :=
  match fuel with
  | O => None
  | S f =>
      match s with
      | EmptyString => None
      | String c r =>
          if Ascii.eqb c "034" then
            match scan_string (S (String.length r)) r with
            | Some (cs, r') => Some (PyStr cs, r')
            | None => None
            end
          else if Ascii.eqb c "{" then
            match skip_ws r with
            | String k r1 =>
                if Ascii.eqb k "}" then Some (PyDict [], r1)
                else if Ascii.eqb k "034" then scan_pairs f r1 []
                else None
            | EmptyString => None
            end
          else if Ascii.eqb c "[" then
            match skip_ws r with
            | String k r1 =>
                if Ascii.eqb k "]" then Some (PyList [], r1)
                else scan_items f (String k r1) []
            | EmptyString => None
            end
          else scan_constant s
      end
  end
with scan_items (fuel : nat) (s : string) (acc : list pyobj)
  : option (pyobj * string) :=
  match fuel with
  | O => None
  | S f =>
      match scan_once f s with
      | Some (v, r) =>
          match skip_ws r with
          | String k r1 =>
              if Ascii.eqb k "]" then Some (PyList (rev (v :: acc)), r1)
              else if Ascii.eqb k "," then scan_items f (skip_ws r1) (v :: acc)
              else None
          | EmptyString => None
          end
      | None => None
      end
  end
with scan_pairs (fuel : nat) (s : string) (acc : list (pystr * pyobj))
  : option (pyobj * string) :=
  match fuel with
  | O => None
  | S f =>
      match scan_string (S (String.length s)) s with
      | Some (key, r) =>
          match skip_ws r with
          | String k r1 =>
              if Ascii.eqb k ":" then
                match scan_once f (skip_ws r1) with
                | Some (v, r2) =>
                    match skip_ws r2 with
                    | String j r3 =>
                        if Ascii.eqb j "}"
                        then Some (PyDict (dict_set key v acc), r3)
                        else if Ascii.eqb j "," then
                          match skip_ws r3 with
                          | String q r4 =>
                              if Ascii.eqb q "034"
                              then scan_pairs f r4 (dict_set key v acc)
                              else None
                          | EmptyString => None
                          end
                        else None
                    | EmptyString => None
                    end
                | None => None
                end
              else None
          | EmptyString => None
          end
      | None => None
      end
  end.

(** [json.loads(s)]; [None] when it raises.  Nesting is followed to any
    depth here, while CPython gives up with [RecursionError] beyond its
    recursion limit, at about a thousand levels; the texts decoded with
    this function in the statements below are flat. *)
Definition loads (s : string) : option pyobj :=
  let s0 := skip_ws s in
  match scan_once (2 * String.length s0 + 2) s0 with
  | Some (v, r) => if is_empty (skip_ws r) then Some v else None
  | None => None
  end.

End Json.

(** ** [sca_ml_dsa_commands.py]: class [OTMLDSA] *)

Module OTMLDSA.

Record t : Type := { simple_serial : bool }.

Definition __init__ (protocol : string) : t :=
  {| simple_serial := if String.eqb protocol "ujson" then false else true |}.

Definition ack_error : exn :=
  Exception "Acknowledge error: Device and host not in sync".

(** [read_line.split("RESP_OK:")[1].split(" CRC:")[0]] *)
Definition response_body (read_line : string) : outcome string :=
  match nth_error (Py.split "RESP_OK:" read_line) 1 with
  | None => Raise IndexError
  | Some tail =>
      match nth_error (Py.split " CRC:" tail) 0 with
      | None => Raise IndexError
      | Some json_string => Ok json_string
      end
  end.

Section Codec.

Variable json_loads : string -> option pyobj.
Variable json_dumps : pyobj -> string.

(** [self.target.write(json.dumps(o).encode("ascii"))] *)
Definition write_json (o : pyobj) (tg : target) : outcome unit * target :=
  match encode_ascii (json_dumps o) with
  | Ok frame => (Ok tt, write frame tg)
  | Raise e => (Raise e, tg)
  end.

Definition _ujson_ml_dsa_sca_cmd (tg : target) : outcome unit * target :=
  write_json (PyStr (str "MlDsaSca")) (sleep 10 tg).

(** The loop of [ml_dsa_sca_read_response]; [None] when [fuel] iterations
    did not end it. *)
Fixpoint read_result_loop (fuel : nat) (num_attempts read_counter : Z)
    (tg : target) : option (outcome pyobj * target) :=
  match fuel with
  | O => None
  | S fuel' =>
      if read_counter <? num_attempts then
        let (read_line, tg1) := readline tg in
        if Py.contains "RESP_OK" read_line then
          match response_body read_line with
          | Raise e => Some (Raise e, tg1)
          | Ok json_string =>
              if Py.contains "result" json_string then
                match json_loads json_string with
                | Some o =>
                    match getitem o (str "result") with
                    | Some v => Some (Ok v, tg1)
                    | None => Some (Raise ack_error, tg1)
                    end
                | None => Some (Raise ack_error, tg1)
                end
              else read_result_loop fuel' num_attempts read_counter tg1
          end
        else read_result_loop fuel' num_attempts (read_counter + 1) tg1
      else Some (Raise ack_error, tg)
  end.

Definition ml_dsa_sca_read_response (fuel : nat) (num_attempts : Z)
    (tg : target) : option (outcome pyobj * target) :=
  read_result_loop fuel num_attempts 0 tg.

(** The loop of [read_response]. *)
Fixpoint read_loop (fuel : nat) (max_tries it : Z) (tg : target)
  : option (outcome string * target) :=
  match fuel with
  | O => None
  | S fuel' =>
      if negb (it =? max_tries) then
        let (read_line, tg1) := readline tg in
        if Py.contains "RESP_OK" read_line then
          Some (response_body read_line, tg1)
        else read_loop fuel' max_tries (it + 1) tg1
      else Some (Ok "", tg)
  end.

Definition read_response (fuel : nat) (max_tries : Z) (tg : target)
  : option (outcome string * target) :=
  read_loop fuel max_tries 0 tg.

(** [init] answers [None] (Python's [None]) over the simple-serial
    protocol, where it does nothing. *)
Definition init (self : t) (fuel : nat) (tg : target)
  : option (outcome (option string) * target) :=
  if negb (simple_serial self) then
    match _ujson_ml_dsa_sca_cmd tg with
    | (Raise e, tg1) => Some (Raise e, tg1)
    | (Ok _, tg1) =>
        match write_json (PyStr (str "Init")) tg1 with
        | (Raise e, tg2) => Some (Raise e, tg2)
        | (Ok _, tg2) =>
            match read_response fuel 30 tg2 with
            | Some (Ok id, tg3) => Some (Ok (Some id), tg3)
            | Some (Raise e, tg3) => Some (Raise e, tg3)
            | None => None
            end
        end
    end
  else Some (Ok None, tg).

Definition ml_dsa_vec_add_batch_fvsr (data : list Z) (num_segments : pyobj)
    (tg : target) : outcome unit * target :=
  match _ujson_ml_dsa_sca_cmd tg with
  | (Raise e, tg1) => (Raise e, tg1)
  | (Ok _, tg1) =>
      match write_json (PyStr (str "VecAddFvsr")) tg1 with
      | (Raise e, tg2) => (Raise e, tg2)
      | (Ok _, tg2) =>
          let tg3 := sleep 10 tg2 in
          let data' :=
            PyDict [(str "data", PyList (map PyInt data));
                    (str "data_length", PyInt (4 * Z.of_nat (List.length data)));
                    (str "iterations", num_segments)] in
          write_json data' tg3
      end
  end.

Definition ml_dsa_vec_reject_batch_fvsr (data : list Z) (num_segments : pyobj)
    (tg : target) : outcome unit * target :=
  match _ujson_ml_dsa_sca_cmd tg with
  | (Raise e, tg1) => (Raise e, tg1)
  | (Ok _, tg1) =>
      match write_json (PyStr (str "RejectFvsr")) tg1 with
      | (Raise e, tg2) => (Raise e, tg2)
      | (Ok _, tg2) =>
          let tg3 := sleep 10 tg2 in
          let data' :=
            PyDict [(str "data", PyList (map PyInt data));
                    (str "data_length", PyInt (4 * Z.of_nat (List.length data)));
                    (str "iterations", num_segments)] in
          write_json data' tg3
      end
  end.

(** [data] is sent as it is, and the length announced is 4. *)
Definition ml_dsa_decompose_batch_fvsr (data : pyobj) (num_segments : pyobj)
    (tg : target) : outcome unit * target :=
  match _ujson_ml_dsa_sca_cmd tg with
  | (Raise e, tg1) => (Raise e, tg1)
  | (Ok _, tg1) =>
      match write_json (PyStr (str "DecomposeFvsr")) tg1 with
      | (Raise e, tg2) => (Raise e, tg2)
      | (Ok _, tg2) =>
          let tg3 := sleep 10 tg2 in
          let data' :=
            PyDict [(str "data", data);
                    (str "data_length", PyInt 4);
                    (str "iterations", num_segments)] in
          write_json data' tg3
      end
  end.

Definition ml_dsa_vec_sub_batch_fvsr (data : list Z) (num_segments : pyobj)
    (tg : target) : outcome unit * target :=
  match _ujson_ml_dsa_sca_cmd tg with
  | (Raise e, tg1) => (Raise e, tg1)
  | (Ok _, tg1) =>
      match write_json (PyStr (str "VecSubFvsr")) tg1 with
      | (Raise e, tg2) => (Raise e, tg2)
      | (Ok _, tg2) =>
          let tg3 := sleep 10 tg2 in
          let data' :=
            PyDict [(str "data", PyList (map PyInt data));
                    (str "data_length", PyInt (4 * Z.of_nat (List.length data)));
                    (str "iterations", num_segments)] in
          write_json data' tg3
      end
  end.

Definition ml_dsa_vec_mul_batch_fvsr (data : list Z) (num_segments : pyobj)
    (tg : target) : outcome unit * target :=
  match _ujson_ml_dsa_sca_cmd tg with
  | (Raise e, tg1) => (Raise e, tg1)
  | (Ok _, tg1) =>
      match write_json (PyStr (str "VecMulFvsr")) tg1 with
      | (Raise e, tg2) => (Raise e, tg2)
      | (Ok _, tg2) =>
          let tg3 := sleep 10 tg2 in
          let data' :=
            PyDict [(str "data", PyList (map PyInt data));
                    (str "data_length", PyInt (4 * Z.of_nat (List.length data)));
                    (str "iterations", num_segments)] in
          write_json data' tg3
      end
  end.

Definition ml_dsa_vec_mac_batch_fvsr (data : list Z) (num_segments : pyobj)
    (tg : target) : outcome unit * target :=
  match _ujson_ml_dsa_sca_cmd tg with
  | (Raise e, tg1) => (Raise e, tg1)
  | (Ok _, tg1) =>
      match write_json (PyStr (str "VecMacFvsr")) tg1 with
      | (Raise e, tg2) => (Raise e, tg2)
      | (Ok _, tg2) =>
          let tg3 := sleep 10 tg2 in
          let data' :=
            PyDict [(str "data", PyList (map PyInt data));
                    (str "data_length", PyInt (4 * Z.of_nat (List.length data)));
                    (str "iterations", num_segments)] in
          write_json data' tg3
      end
  end.

Definition ml_dsa_vec_ntt_batch_fvsr (data : list Z) (num_segments : pyobj)
    (tg : target) : outcome unit * target :=
  match _ujson_ml_dsa_sca_cmd tg with
  | (Raise e, tg1) => (Raise e, tg1)
  | (Ok _, tg1) =>
      match write_json (PyStr (str "NttFvsr")) tg1 with
      | (Raise e, tg2) => (Raise e, tg2)
      | (Ok _, tg2) =>
          let tg3 := sleep 10 tg2 in
          let data' :=
            PyDict [(str "data", PyList (map PyInt data));
                    (str "data_length", PyInt (4 * Z.of_nat (List.length data)));
                    (str "iterations", num_segments)] in
          write_json data' tg3
      end
  end.

Definition ml_dsa_vec_intt_batch_fvsr (data : list Z) (num_segments : pyobj)
    (tg : target) : outcome unit * target :=
  match _ujson_ml_dsa_sca_cmd tg with
  | (Raise e, tg1) => (Raise e, tg1)
  | (Ok _, tg1) =>
      match write_json (PyStr (str "InttFvsr")) tg1 with
      | (Raise e, tg2) => (Raise e, tg2)
      | (Ok _, tg2) =>
          let tg3 := sleep 10 tg2 in
          let data' :=
            PyDict [(str "data", PyList (map PyInt data));
                    (str "data_length", PyInt (4 * Z.of_nat (List.length data)));
                    (str "iterations", num_segments)] in
          write_json data' tg3
      end
  end.

End Codec.

End OTMLDSA.

(** ** Python numbers: [int] is [Z], a finite [float] is the rational it
    denotes

    Every [float] operation is the exact one followed by [fl], rounding to
    the nearest binary64 number, ties to even.  [None] stands for an
    infinite result. *)

Module PyNum.

Local Open Scope Z_scope.

(** The integer nearest to [n / d] for [0 < d], ties to even. *)
Definition round_half_even (n d : Z) : Z :=
  let q := n / d in
  match 2 * (n mod d) ?= d with
  | Lt => q
  | Gt => q + 1
  | Eq => if Z.even q then q else q + 1
  end.

(** [floor (log2 (a / d))] for [0 < a] and [0 < d]. *)
Definition ilog2 (a d : Z) : Z :=
  let k0 := Z.log2 a - Z.log2 d in
  let reached :=
    if 0 <=? k0 then d * 2 ^ k0 <=? a else d <=? a * 2 ^ (- k0) in
  if reached then k0 else k0 - 1.

(** [z * 2 ^ e] *)
Definition scale (z e : Z) : Q :=
  if 0 <=? e then inject_Z (z * 2 ^ e) else z # Z.to_pos (2 ^ (- e)).

(** Rounding to binary64: 53 significant bits, the smallest positive number
    is [2 ^ -1074], the largest finite one [(2 ^ 53 - 1) * 2 ^ 971]. *)
Definition fl (x : Q) : option Q :=
  let x' := Qred x in
  let n := Qnum x' in
  let d := Zpos (Qden x') in
  if n =? 0 then Some 0%Q
  else
    let a := Z.abs n in
    let e := Z.max (ilog2 a d - 52) (-1074) in
    let m :=
      if 0 <=? e then round_half_even a (d * 2 ^ e)
      else round_half_even (a * 2 ^ (- e)) d in
    if ((971 <? e) || ((e =? 971) && (m =? 2 ^ 53)))%bool then None
    else Some (Qred (scale (Z.sgn n * m) e)).

Definition Qltb (x y : Q) : bool := negb (Qle_bool y x).

Definition is_zero (x : Q) : bool := Qeq_bool x 0.

(** Rounding towards zero. *)
Definition Qtrunc (x : Q) : Z := Z.quot (Qnum x) (Zpos (Qden x)).

(** C's [fmod], which is exact: the sign of [vx], a magnitude below that of
    [wx]. *)
Definition fmod (vx wx : Q) : Q :=
  Qred (vx - inject_Z (Qtrunc (vx / wx)) * wx).

Definition bind_inf (x : option Q) (k : Q -> option Q) : option Q :=
  match x with Some q => k q | None => None end.

(** CPython's [float_floor_div] for [wx <> 0]: the quotient of [vx - mod] by
    [wx], moved down by one when the remainder and the divisor differ in
    sign, then snapped to the nearest integral value. *)
Definition float_floor_div (vx wx : Q) : option Q :=
  let mod_ := fmod vx wx in
  bind_inf (fl (vx - mod_)) (fun num =>
  bind_inf (fl (num / wx)) (fun div0 =>
  bind_inf (if (negb (is_zero mod_) && negb (Bool.eqb (Qltb wx 0) (Qltb mod_ 0)))%bool
            then fl (div0 - 1) else Some div0) (fun div =>
  if negb (is_zero div) then
    let floordiv := inject_Z (Qfloor div) in
    bind_inf (fl (div - floordiv)) (fun gap =>
    if Qltb (1 # 2) gap then fl (floordiv + 1) else Some floordiv)
  else Some 0%Q))).

(** [float(z)] *)
Definition float_of_int (z : Z) : outcome Q :=
  match fl (inject_Z z) with
  | Some q => Ok q
  | None => Raise OverflowError
  end.

(** [int(x)] *)
Definition int_of_float (x : option Q) : outcome Z :=
  match x with
  | Some q => Ok (Qtrunc q)
  | None => Raise OverflowError
  end.

(** [vx // w] for a [float] and an [int] *)
Definition floordiv_float_int (vx : Q) (w : Z) : outcome (option Q) :=
  match float_of_int w with
  | Raise e => Raise e
  | Ok wx =>
      if is_zero wx then Raise ZeroDivisionError
      else Ok (float_floor_div vx wx)
  end.

(** [a / b] for two [int]: the quotient rounded once. *)
Definition truediv_int (a b : Z) : outcome Q :=
  if b =? 0 then Raise ZeroDivisionError
  else
    match fl (inject_Z a / inject_Z b) with
    | Some q => Ok q
    | None => Raise OverflowError
    end.

(** [z * y] for an [int] and a [float] *)
Definition mul_int_float (z : Z) (y : Q) : outcome (option Q) :=
  match float_of_int z with
  | Raise e => Raise e
  | Ok x => Ok (fl (x * y))
  end.

(** *** The same numbers in the Standard Library's IEEE 754 model *)

(** The binary64 number nearest to the integer [z]. *)
Definition b64 (z : Z) : spec_float := binary_normalize 53 1024 z 0 false.

(** The value of a finite number; [None] for an infinity or a NaN. *)
Definition of_spec (f : spec_float) : option Q :=
  match f with
  | S754_zero _ => Some 0%Q
  | S754_finite s m e => Some (Qred (scale (if s then Z.neg m else Z.pos m) e))
  | S754_infinity _ => None
  | S754_nan => None
  end.

(** The pairs [(n, d)] with [1 <= n <= bound] and [1 <= d <= bound]. *)
Definition grid (bound : nat) : list (Z * Z) :=
  list_prod (map Z.of_nat (seq 1 bound)) (map Z.of_nat (seq 1 bound)).

Definition same_float (a b : option Q) : bool :=
  match a, b with
  | Some x, Some y =>
      (Qnum x =? Qnum y) && (Z.pos (Qden x) =? Z.pos (Qden y))
  | None, None => true
  | _, _ => false
  end.

End PyNum.

(** ** [husky.py]: class [Husky] *)

Module Husky.

Import PyNum.

(** [200e6] *)
Definition SAMPLING_RATE_MAX : Q := 200000000.

(** The ChipWhisperer scope: the attributes the host has assigned, latest
    first, and what the instrument answers.  [adc_locked n] is the [n]-th
    reading of [scope.clock.adc_locked]. *)
Record scope_t : Type := {
  attrs : list (string * pyobj);
  _is_husky : bool;
  adc_locked : nat -> bool;
  lock_reads : nat;
  capture_ret : bool;
  last_trace : list Z;
  segmented_waves : list (list Z)
}.

Definition setattr (name : string) (v : pyobj) (s : scope_t) : scope_t :=
  {| attrs := (name, v) :: attrs s;
     _is_husky := _is_husky s;
     adc_locked := adc_locked s;
     lock_reads := lock_reads s;
     capture_ret := capture_ret s;
     last_trace := last_trace s;
     segmented_waves := segmented_waves s |}.

Fixpoint assoc (name : string) (l : list (string * pyobj)) : option pyobj :=
  match l with
  | [] => None
  | (k, v) :: l' => if String.eqb k name then Some v else assoc name l'
  end.

Definition getattr (name : string) (s : scope_t) : option pyobj :=
  assoc name (attrs s).

Definition read_adc_locked (s : scope_t) : bool * scope_t :=
  (adc_locked s (lock_reads s),
   {| attrs := attrs s;
      _is_husky := _is_husky s;
      adc_locked := adc_locked s;
      lock_reads := S (lock_reads s);
      capture_ret := capture_ret s;
      last_trace := last_trace s;
      segmented_waves := segmented_waves s |}).

Record t : Type := {
  scope : option scope_t;
  scope_gain : pyobj;
  clkgen_freq : Z;
  adc_mul : Z;
  sampling_rate : Z;
  target_freq : Z;
  offset_samples : Z;
  num_samples : Z;
  num_segments : Z
}.

Definition bind {A B : Type} (x : outcome A) (k : A -> outcome B) : outcome B :=
  match x with
  | Ok a => k a
  | Raise e => Raise e
  end.

Notation "x <- c ;; k" := (bind c (fun x => k))
  (at level 61, c at next level, right associativity).

(** [self.sampling_rate / self.target_freq] *)
Definition sampling_target_ratio (sampling_rate target_freq : Z) : outcome Q :=
  truediv_int sampling_rate target_freq.

(** [int(cycles * sampling_target_ratio)] *)
Definition samples_of_cycles (cycles : Z) (ratio : Q) : outcome Z :=
  p <- mul_int_float cycles ratio ;;
  int_of_float p.

(** The step that makes the number of samples divisible by 3. *)
Definition round_up_3 (num_samples : Z) : Z :=
  if negb (num_samples mod 3 =? 0)
  then num_samples + 3 - num_samples mod 3
  else num_samples.

(** The numeric arguments are [int]s, as [HuskyVCC] of [husky_vcc.py]
    annotates its [pll_frequency]; [SAMPLING_RATE_MAX] is a [float], so the
    floor division, the ratio and the scaled counts are [float]
    operations. *)
Definition __init__ (scope_gain : pyobj)
    (num_cycles num_segments offset_cycles pll_frequency target_clk_mult : Z)
  : outcome t :=
  let clkgen_freq := pll_frequency in
  q <- floordiv_float_int SAMPLING_RATE_MAX pll_frequency ;;
  adc_mul <- int_of_float q ;;
  let sampling_rate := clkgen_freq * adc_mul in
  let target_freq := pll_frequency * target_clk_mult in
  ratio <- sampling_target_ratio sampling_rate target_freq ;;
  offset_samples <- samples_of_cycles offset_cycles ratio ;;
  num_samples <- samples_of_cycles num_cycles ratio ;;
  Ok {| scope := None;
        scope_gain := scope_gain;
        clkgen_freq := clkgen_freq;
        adc_mul := adc_mul;
        sampling_rate := sampling_rate;
        target_freq := target_freq;
        offset_samples := offset_samples;
        num_samples := round_up_3 num_samples;
        num_segments := num_segments |}.

(** Lines 22 to 24 for a frequency that is a [float]: the ADC multiplier,
    and the sampling rate, now the [float] product of a [float] and an
    [int]. *)
Definition clock_of_float (pll_frequency : Q) : outcome (Z * option Q) :=
  if is_zero pll_frequency then Raise ZeroDivisionError
  else
    adc_mul <- int_of_float (float_floor_div SAMPLING_RATE_MAX pll_frequency) ;;
    x <- float_of_int adc_mul ;;
    Ok (adc_mul, fl (pll_frequency * x)).

Definition with_scope (self : t) (s : scope_t) : t :=
  {| scope := Some s;
     scope_gain := scope_gain self;
     clkgen_freq := clkgen_freq self;
     adc_mul := adc_mul self;
     sampling_rate := sampling_rate self;
     target_freq := target_freq self;
     offset_samples := offset_samples self;
     num_samples := num_samples self;
     num_segments := num_segments self |}.

(** The settings [initialize_scope] writes between the check of the
    instrument and the wait for the lock. *)
Definition configure (self : t) (s : scope_t) : scope_t :=
  let s := setattr "clock.clkgen_src" (PyStr (str "extclk")) s in
  let s := setattr "clock.clkgen_freq" (PyInt (clkgen_freq self)) s in
  let s := setattr "clock.adc_mul" (PyInt (adc_mul self)) s in
  let s := setattr "clock.extclk_monitor_enabled" (PyBool false) s in
  let s := setattr "adc.samples" (PyInt (num_samples self)) s in
  let s :=
    if 0 <=? offset_samples self
    then setattr "adc.offset" (PyInt (offset_samples self)) s
    else setattr "adc.presamples" (PyInt (- offset_samples self))
           (setattr "adc.offset" (PyInt 0) s) in
  let s := setattr "trigger.triggers" (PyStr (str "tio4")) s in
  let s := setattr "io.tio1" (PyStr (str "serial_tx")) s in
  let s := setattr "io.tio2" (PyStr (str "serial_rx")) s in
  let s := setattr "io.hs2" (PyStr (str "disabled")) s in
  setattr "clock.clkgen_src" (PyStr (str "extclk")) s.

Definition lock_error : exn := RuntimeError "ADC failed to lock (attempts: 3).".

(** The wait for the ADC lock: the answer, the instrument and the sleeps
    made; [None] when [fuel] iterations did not end it. *)
Fixpoint wait_adc_lock (fuel : nat) (ping_cnt : Z) (s : scope_t)
    (slept : list event) : option (outcome unit * scope_t * list event) :=
  match fuel with
  | O => None
  | S fuel' =>
      let (locked, s1) := read_adc_locked s in
      if negb locked then
        if ping_cnt =? 3 then Some (Raise lock_error, s1, slept)
        else wait_adc_lock fuel' (ping_cnt + 1) s1 (slept ++ [Sleep 500])
      else Some (Ok tt, s1, slept)
  end.

(** [cw_scope] is the instrument [cw.scope()] connects to. *)
Definition initialize_scope (fuel : nat) (self : t) (cw_scope : scope_t)
  : option (outcome t * scope_t * list event) :=
  let s := setattr "gain.db" (scope_gain self) cw_scope in
  let s := setattr "adc.basic_mode" (PyStr (str "rising_edge")) s in
  if negb (_is_husky s) then
    Some (Raise (RuntimeError "Only ChipWhisperer Husky is supported!"), s, [])
  else
    match wait_adc_lock fuel 0 (configure self s) [] with
    | None => None
    | Some (Raise e, s', slept) => Some (Raise e, s', slept)
    | Some (Ok _, s', slept) => Some (Ok (with_scope self s'), s', slept)
    end.

(** The wait for the target in single mode. *)
Fixpoint wait_target_done (fuel : nat) (i : Z) (tg : target) : option target :=
  match fuel with
  | O => None
  | S fuel' =>
      let (finished, tg1) := is_done tg in
      if negb finished then
        let i' := i + 1 in
        let tg2 := sleep 50 tg1 in
        let tg3 :=
          if 100 <? i'
          then print "Warning: Target did not finish operation" tg2
          else tg2 in
        wait_target_done fuel' i' tg3
      else Some tg1
  end.

(** The traces returned, one per row, and the target afterwards.  A call
    on [self.scope] while it is [None] raises [AttributeError].  In batch
    mode [self.scope] is the segmented adapter, whose answer is
    [segmented_waves]. *)
Definition capture_and_transfer_waves (fuel : nat) (self : t) (tg : target)
  : option (outcome (list (list Z)) * target) :=
  if num_segments self =? 1 then
    match scope self with
    | None => Some (Raise AttributeError, tg)
    | Some s =>
        let ret := capture_ret s in
        match wait_target_done fuel 0 tg with
        | None => None
        | Some tg1 =>
            let tg2 :=
              if ret then print "Warning: Timeout happened during capture" tg1
              else tg1 in
            Some (Ok [last_trace s], tg2)
        end
    end
  else
    match scope self with
    | None => Some (Raise AttributeError, tg)
    | Some s => Some (Ok (segmented_waves s), tg)
    end.

End Husky.

(** ** [husky_vcc.py]: class [HuskyVCC] *)

Module HuskyVCC.

(** The methods of the scope that the class calls. *)
Inductive call : Type :=
| VglitchSetup (mode : string) (default_setup : bool)
| Arm.

(** The scope: the attributes assigned, latest first, and the calls made,
    in order. *)
Record scope_t : Type := {
  attrs : list (string * pyobj);
  _is_husky : bool;
  calls : list call
}.

Definition setattr (name : string) (v : pyobj) (s : scope_t) : scope_t :=
  {| attrs := (name, v) :: attrs s;
     _is_husky := _is_husky s;
     calls := calls s |}.

Definition getattr (name : string) (s : scope_t) : option pyobj :=
  Husky.assoc name (attrs s).

Definition invoke (c : call) (s : scope_t) : scope_t :=
  {| attrs := attrs s;
     _is_husky := _is_husky s;
     calls := calls s ++ [c] |}.

Record t : Type := {
  scope : option scope_t;
  pll_frequency : Z;
  glitch_width_min : pyobj;
  glitch_width_max : pyobj;
  glitch_width_step : pyobj;
  trigger_delay_min : pyobj;
  trigger_delay_max : pyobj;
  trigger_step : pyobj
}.

Definition with_scope (self : t) (s : scope_t) : t :=
  {| scope := Some s;
     pll_frequency := pll_frequency self;
     glitch_width_min := glitch_width_min self;
     glitch_width_max := glitch_width_max self;
     glitch_width_step := glitch_width_step self;
     trigger_delay_min := trigger_delay_min self;
     trigger_delay_max := trigger_delay_max self;
     trigger_step := trigger_step self |}.

(** What a method gives: its value, the [KeyError] of a missing key, or
    another exception. *)
Inductive result (A : Type) : Type :=
| Returned (a : A)
| KeyError (key : pystr)
| Raised (e : exn).
Arguments Returned {A} a.
Arguments KeyError {A} key.
Arguments Raised {A} e.

Section Collaborators.

(** [check_version.check_husky] of [util] and [random_float_range] of
    [fi_gear.utility] are not part of these sources: the first may raise,
    the second draws from a generator whose state is [rng]. *)
Variable check_husky : string -> outcome unit.
Variable rng : Type.
Variable random_float_range : pyobj -> pyobj -> pyobj -> rng -> pyobj * rng.

(** [cw_scope] is the instrument [cw.scope()] connects to.  It is bound
    before it is checked. *)
Definition init_husky (self : t) (cw_scope : scope_t) : outcome unit * t :=
  match check_husky "1.5.0" with
  | Raise e => (Raise e, self)
  | Ok _ =>
      if negb (_is_husky cw_scope) then
        (Raise (RuntimeError "Only ChipWhisperer Husky is supported!"),
         with_scope self cw_scope)
      else
        let s := setattr "clock.clkgen_freq" (PyInt (pll_frequency self)) cw_scope in
        let s := invoke (VglitchSetup "hp" false) s in
        let s := setattr "glitch.output" (PyStr (str "enable_only")) s in
        let s := setattr "glitch.trigger_src" (PyStr (str "ext_single")) s in
        let s := setattr "trigger.triggers" (PyStr (str "tio4")) s in
        (Ok tt, with_scope self s)
  end.

Definition __init__ (pll_frequency : Z)
    (glitch_width_min glitch_width_max glitch_width_step : pyobj)
    (trigger_delay_min trigger_delay_max trigger_step : pyobj)
    (cw_scope : scope_t) : outcome t :=
  let self :=
    {| scope := None;
       pll_frequency := pll_frequency;
       glitch_width_min := glitch_width_min;
       glitch_width_max := glitch_width_max;
       glitch_width_step := glitch_width_step;
       trigger_delay_min := trigger_delay_min;
       trigger_delay_max := trigger_delay_max;
       trigger_step := trigger_step |} in
  match init_husky self cw_scope with
  | (Ok _, self') => Ok self'
  | (Raise e, _) => Raise e
  end.

(** In each assignment the subscript on the right is evaluated before the
    attribute on the left is reached. *)
Definition arm_trigger (self : t) (fault_parameters : list (pystr * pyobj))
  : result unit * t :=
  match dict_get (str "glitch_width") fault_parameters with
  | None => (KeyError (str "glitch_width"), self)
  | Some width =>
      match scope self with
      | None => (Raised AttributeError, self)
      | Some s =>
          let s1 := setattr "glitch.repeat" width s in
          match dict_get (str "trigger_delay") fault_parameters with
          | None => (KeyError (str "trigger_delay"), with_scope self s1)
          | Some delay =>
              let s2 := setattr "glitch.ext_offset" delay s1 in
              (Returned tt, with_scope self (invoke Arm s2))
          end
      end
  end.

Definition generate_fi_parameters (self : t) (g : rng)
  : list (pystr * pyobj) * rng :=
  let parameters := [] in
  let (width, g1) :=
    random_float_range (glitch_width_min self) (glitch_width_max self)
      (glitch_width_step self) g in
  let parameters := dict_set (str "glitch_width") width parameters in
  let (delay, g2) :=
    random_float_range (trigger_delay_min self) (trigger_delay_max self)
      (trigger_step self) g1 in
  let parameters := dict_set (str "trigger_delay") delay parameters in
  (parameters, g2).

Definition reset (self : t) (cw_scope : scope_t) : outcome unit * t :=
  init_husky self cw_scope.

End Collaborators.

End HuskyVCC.

(** ** Vocabulary of the statements *)

(** A line [ml_dsa_sca_read_response] passes over: one without the marker,
    or one whose body does not mention [result]. *)
Definition passed_over (line : string) : bool :=
  if Py.contains "RESP_OK" line then
    match OTMLDSA.response_body line with
    | Ok json_string => negb (Py.contains "result" json_string)
    | Raise _ => false
    end
  else true.

(** The attempts that the [k] lines from [start] on use up: the lines
    without the marker. *)
Fixpoint attempts_used (lines : nat -> string) (start k : nat) : Z :=
  match k with
  | O => 0
  | S k' =>
      (if Py.contains "RESP_OK" (lines start) then 0 else 1)
      + attempts_used lines (S start) k'
  end.

(** A target that sends [lines] and then nothing: a read that times out
    gives the empty [bytes], whose [str] is [b'']. *)
Definition target_of (lines : list string) : target :=
  {| rx := fun n => nth n lines "b''";
     rd := 0;
     done := fun _ => true;
     polls := 0;
     log := [] |}.

(** A target that never reports that it is done. *)
Definition never_done : target :=
  {| rx := fun _ => "b''";
     rd := 0;
     done := fun _ => false;
     polls := 0;
     log := [] |}.

(** The frames written, in order. *)
Fixpoint frames (l : list event) : list string :=
  match l with
  | [] => []
  | Write f :: l' => f :: frames l'
  | _ :: l' => frames l'
  end.

(** The warnings printed, in order. *)
Fixpoint printed (l : list event) : list string :=
  match l with
  | [] => []
  | Print s :: l' => s :: printed l'
  | _ :: l' => printed l'
  end.

Definition line_result_42 : string :=
  "junk RESP_OK:{" ++ Py.dq ++ "result" ++ Py.dq ++ ":42} CRC:abc".

Definition line_not_json : string := "RESP_OK:{not-json} CRC:x".

Definition line_broken_result : string := "RESP_OK:{result} CRC:x".




(** The payload of the vector [1, 2, 3, 4] with 10 iterations. *)
Definition payload_1234 : pyobj :=
  PyDict [(str "data", PyList [PyInt 1; PyInt 2; PyInt 3; PyInt 4]);
          (str "data_length", PyInt 16);
          (str "iterations", PyInt 10)].

(** The scope after [k] more readings of [adc_locked]. *)
Definition after_reads (k : nat) (s : Husky.scope_t) : Husky.scope_t :=
  {| Husky.attrs := Husky.attrs s;
     Husky._is_husky := Husky._is_husky s;
     Husky.adc_locked := Husky.adc_locked s;
     Husky.lock_reads := Husky.lock_reads s + k;
     Husky.capture_ret := Husky.capture_ret s;
     Husky.last_trace := Husky.last_trace s;
     Husky.segmented_waves := Husky.segmented_waves s |}.

(** The scope with every setting of [initialize_scope] written. *)
Definition prepared (self : Husky.t) (cw_scope : Husky.scope_t) : Husky.scope_t :=
  Husky.configure self
    (Husky.setattr "adc.basic_mode" (PyStr (str "rising_edge"))
       (Husky.setattr "gain.db" (Husky.scope_gain self) cw_scope)).

(** A Husky scope whose capture does not time out. *)
Definition bench_scope : Husky.scope_t :=
  {| Husky.attrs := [];
     Husky._is_husky := true;
     Husky.adc_locked := fun _ => true;
     Husky.lock_reads := 0;
     Husky.capture_ret := false;
     Husky.last_trace := [7; 8; 9];
     Husky.segmented_waves := [] |}.

(** A Husky in single mode, bound to [bench_scope]. *)
Definition bench_husky : Husky.t :=
  {| Husky.scope := Some bench_scope;
     Husky.scope_gain := PyInt 30;
     Husky.clkgen_freq := 48000000;
     Husky.adc_mul := 4;
     Husky.sampling_rate := 192000000;
     Husky.target_freq := 96000000;
     Husky.offset_samples := 0;
     Husky.num_samples := 201;
     Husky.num_segments := 1 |}.

(** A target that reports done at its poll number [k], counted from 0. *)
Definition done_at (k : nat) : target :=
  {| rx := fun _ => "b''";
     rd := 0;
     done := fun n => Nat.eqb n k;
     polls := 0;
     log := [] |}.

(** A Husky scope whose ADC never locks, and one whose ADC is locked from
    reading [k] on, counted from 0. *)
Definition never_locked : Husky.scope_t :=
  {| Husky.attrs := [];
     Husky._is_husky := true;
     Husky.adc_locked := fun _ => false;
     Husky.lock_reads := 0;
     Husky.capture_ret := false;
     Husky.last_trace := [];
     Husky.segmented_waves := [] |}.

Definition locked_at (k : nat) : Husky.scope_t :=
  {| Husky.attrs := [];
     Husky._is_husky := true;
     Husky.adc_locked := fun n => Nat.leb k n;
     Husky.lock_reads := 0;
     Husky.capture_ret := false;
     Husky.last_trace := [];
     Husky.segmented_waves := [] |}.

(** The plan for 48 MHz, the multiplier 2, 100 cycles and an offset of -40
    cycles. *)
Definition bench_plan : Husky.t :=
  {| Husky.scope := None;
     Husky.scope_gain := PyInt 30;
     Husky.clkgen_freq := 48000000;
     Husky.adc_mul := 4;
     Husky.sampling_rate := 192000000;
     Husky.target_freq := 96000000;
     Husky.offset_samples := -80;
     Husky.num_samples := 201;
     Husky.num_segments := 1 |}.

(** ** Vocabulary of the further statements *)

(** [json_dumps] gives ASCII text on each object of [objects], as
    [json.dumps] does on every object. *)
Definition ascii_on (json_dumps : pyobj -> string) (objects : list pyobj) : bool :=
  forallb (fun o => forallb is_ascii (list_ascii_of_string (json_dumps o)))
          objects.

(** The payload of the batch commands that send a vector. *)
Definition vec_payload (data : list Z) (num_segments : pyobj) : pyobj :=
  PyDict [(str "data", PyList (map PyInt data));
          (str "data_length", PyInt (4 * Z.of_nat (List.length data)));
          (str "iterations", num_segments)].

(** The batch commands that send a vector, each with its tag. *)
Definition vec_commands (json_dumps : pyobj -> string)
  : list ((list Z -> pyobj -> target -> outcome unit * target) * string) :=
  [(OTMLDSA.ml_dsa_vec_reject_batch_fvsr json_dumps, "RejectFvsr");
   (OTMLDSA.ml_dsa_vec_add_batch_fvsr json_dumps, "VecAddFvsr");
   (OTMLDSA.ml_dsa_vec_sub_batch_fvsr json_dumps, "VecSubFvsr");
   (OTMLDSA.ml_dsa_vec_mul_batch_fvsr json_dumps, "VecMulFvsr");
   (OTMLDSA.ml_dsa_vec_mac_batch_fvsr json_dumps, "VecMacFvsr");
   (OTMLDSA.ml_dsa_vec_ntt_batch_fvsr json_dumps, "NttFvsr");
   (OTMLDSA.ml_dsa_vec_intt_batch_fvsr json_dumps, "InttFvsr")].

(** What a command with the tag [tag] and the payload [payload] adds to
    the log. *)
Definition command_log (json_dumps : pyobj -> string) (tag : string)
    (payload : pyobj) : list event :=
  [Sleep 10;
   Write (json_dumps (PyStr (str "MlDsaSca")));
   Write (json_dumps (PyStr (str tag)));
   Sleep 10;
   Write (json_dumps payload)].

(** A target all of whose lines are [line]. *)
Definition target_repeating (line : string) : target :=
  {| rx := fun _ => line;
     rd := 0;
     done := fun _ => true;
     polls := 0;
     log := [] |}.

Definition line_status : string :=
  "RESP_OK:{" ++ Py.dq ++ "status" ++ Py.dq ++ ":0} CRC:7".

Definition line_other_key : string :=
  "RESP_OK:{" ++ Py.dq ++ "state" ++ Py.dq ++ ":" ++ Py.dq ++ "result"
    ++ Py.dq ++ "} CRC:7".

Definition line_device_id : string :=
  "RESP_OK:{" ++ Py.dq ++ "device_id" ++ Py.dq ++ ":[1,2]} CRC:99".

(** What [k] polls that find the target busy add to the log when [i] such
    polls came before: a sleep of 50 ms each, and the warning from the
    101st on. *)
Fixpoint waiting_log (i : Z) (k : nat) : list event :=
  match k with
  | O => []
  | S k' =>
      Sleep 50
      :: (if 100 <? i + 1
          then [Print "Warning: Target did not finish operation"]
          else [])
      ++ waiting_log (i + 1) k'
  end.

(** The target after [k] busy polls and the poll that found it done. *)
Definition after_wait (k : nat) (extra : list event) (t : target) : target :=
  {| rx := rx t;
     rd := rd t;
     done := done t;
     polls := polls t + S k;
     log := log t ++ waiting_log 0 k ++ extra |}.

(** A Husky scope whose capture times out. *)
Definition timeout_scope : Husky.scope_t :=
  {| Husky.attrs := [];
     Husky._is_husky := true;
     Husky.adc_locked := fun _ => true;
     Husky.lock_reads := 0;
     Husky.capture_ret := true;
     Husky.last_trace := [1; 2; 3];
     Husky.segmented_waves := [] |}.

(** ** Vocabulary for the glitch controller *)

(** A version check that passes, and a generator that counts its draws and
    always gives the lower bound. *)
Definition check_passes (version : string) : outcome unit := Ok tt.

Definition draw_lower (lo hi step : pyobj) (g : nat) : pyobj * nat := (lo, S g).

(** A Husky on which nothing has been set or called, and an instrument
    that is not a Husky. *)
Definition vcc_scope : HuskyVCC.scope_t :=
  {| HuskyVCC.attrs := [];
     HuskyVCC._is_husky := true;
     HuskyVCC.calls := [] |}.

Definition vcc_other_scope : HuskyVCC.scope_t :=
  {| HuskyVCC.attrs := [];
     HuskyVCC._is_husky := false;
     HuskyVCC.calls := [] |}.

(** The object with the given scope, the PLL frequency 100 MHz, widths
    from 5 to 150 and delays from 0 to 500. *)
Definition vcc_object (s : option HuskyVCC.scope_t) : HuskyVCC.t :=
  {| HuskyVCC.scope := s;
     HuskyVCC.pll_frequency := 100000000;
     HuskyVCC.glitch_width_min := PyInt 5;
     HuskyVCC.glitch_width_max := PyInt 150;
     HuskyVCC.glitch_width_step := PyInt 1;
     HuskyVCC.trigger_delay_min := PyInt 0;
     HuskyVCC.trigger_delay_max := PyInt 500;
     HuskyVCC.trigger_step := PyInt 10 |}.

(** * Properties *)

(** ** Searching and splitting text *)

Section StringFacts.

Local Open Scope nat_scope.

Lemma prefix_app (sub rest : string) : prefix sub (sub ++ rest) = true.
Proof.
  induction sub as [|c sub IH]; simpl.
  - destruct rest; reflexivity.
  - destruct (ascii_dec c c) as [_|H]; [exact IH | now elim H].
Qed.

Lemma take_app (pre rest : string) : Py.take (String.length pre) (pre ++ rest) = pre.
Proof.
  induction pre as [|c pre IH]; simpl.
  - destruct rest; reflexivity.
  - now rewrite IH.
Qed.

Lemma drop_app (pre rest : string) : Py.drop (String.length pre) (pre ++ rest) = rest.
Proof. induction pre as [|c pre IH]; simpl; [reflexivity | exact IH]. Qed.

Lemma drop_add (a b : nat) (s : string) : Py.drop (a + b) s = Py.drop b (Py.drop a s).
Proof.
  revert s; induction a as [|a IH]; intros s; simpl.
  - reflexivity.
  - destruct s as [|c s]; simpl.
    + destruct b; reflexivity.
    + apply IH.
Qed.

Lemma length_app_str (a b : string) :
  String.length (a ++ b) = String.length a + String.length b.
Proof. induction a as [|x a IH]; simpl; [reflexivity | now rewrite IH]. Qed.

(** An occurrence that starts in [u] and is a prefix of [u ++ c :: w]
    either lies within [u] or runs over the [c]. *)
Lemma prefix_straddle (c : ascii) (w : string) :
  forall u s : string,
    prefix s (u ++ String c w) = true ->
    prefix s u = true \/ exists s2, s = (u ++ String c s2)%string.
Proof.
  induction u as [|a u IH]; intros s H.
  - destruct s as [|b s]; [now left|].
    simpl in H. destruct (ascii_dec b c) as [->|]; [|discriminate].
    right. now exists s.
  - destruct s as [|b s]; [now left|].
    simpl in H. destruct (ascii_dec b a) as [->|]; [|discriminate].
    destruct (IH s H) as [Hp | [s2 ->]].
    + left. simpl. now destruct (ascii_dec a a).
    + right. now exists s2.
Qed.

Lemma occurs_app (c : ascii) (u v : string) :
  Py.occurs c (u ++ String c v) = true.
Proof.
  induction u as [|a u IH]; simpl.
  - now rewrite Ascii.eqb_refl.
  - now destruct (Ascii.eqb a c).
Qed.

Lemma contains_cons_false (sub : string) (a : ascii) (s : string) :
  Py.contains sub (String a s) = false ->
  prefix sub (String a s) = false /\ Py.contains sub s = false.
Proof.
  unfold Py.contains. cbn [Py.find].
  destruct (prefix sub (String a s)); [discriminate|].
  destruct (Py.find sub s); simpl; [discriminate | auto].
Qed.

(** The leftmost occurrence of a separator whose first character occurs
    nowhere else in it, behind a text that does not contain it. *)
Lemma find_app_sep (c : ascii) (t pre rest : string) :
  Py.occurs c t = false ->
  Py.contains (String c t) pre = false ->
  Py.find (String c t) (pre ++ String c t ++ rest) = Some (String.length pre).
Proof.
  intros Hc. induction pre as [|a pre IH]; intros Hn.
  - change (Py.find (String c t) (String c t ++ rest) = Some 0).
    destruct (String c t ++ rest)%string eqn:E; [discriminate|].
    cbn [Py.find]. rewrite <- E, prefix_app. reflexivity.
  - apply contains_cons_false in Hn. destruct Hn as [Hp Hn].
    change (String a pre ++ String c t ++ rest)%string
      with (String a (pre ++ String c t ++ rest)).
    cbn [Py.find String.length].
    destruct (prefix (String c t) (String a (pre ++ String c t ++ rest))) eqn:E.
    + exfalso.
      change (String a (pre ++ String c t ++ rest))
        with (String a pre ++ String c (t ++ rest))%string in E.
      apply prefix_straddle in E. destruct E as [E | [s2 E]].
      * congruence.
      * injection E as -> ->.
        now rewrite occurs_app in Hc.
    + now rewrite (IH Hn).
Qed.

Lemma contains_app (sub pre rest : string) :
  Py.contains sub (pre ++ sub ++ rest) = true.
Proof.
  unfold Py.contains. induction pre as [|a pre IH].
  - cbn [append]. destruct (sub ++ rest)%string eqn:E.
    + destruct sub; [reflexivity | discriminate].
    + cbn [Py.find]. rewrite <- E, prefix_app. reflexivity.
  - change (String a pre ++ sub ++ rest)%string
      with (String a (pre ++ sub ++ rest)).
    cbn [Py.find].
    destruct (prefix sub (String a (pre ++ sub ++ rest))); [reflexivity|].
    destruct (Py.find sub (pre ++ sub ++ rest)); [reflexivity | discriminate].
Qed.

Lemma split_no_sep (sep s : string) :
  Py.contains sep s = false -> Py.split sep s = [s].
Proof.
  unfold Py.contains, Py.split. cbn [Py.split_from].
  destruct (Py.find sep s); [discriminate | reflexivity].
Qed.

Lemma drop_length (n : nat) :
  forall s : string, String.length (Py.drop n s) = String.length s - n.
Proof.
  induction n as [|n IH]; intros s; simpl.
  - lia.
  - destruct s as [|a s]; simpl; [reflexivity | apply IH].
Qed.

(** More fuel than the text is long never changes a split. *)
Lemma split_from_enough (c : ascii) (t : string) :
  forall (f1 f2 : nat) (s : string),
    String.length s < f1 -> String.length s < f2 ->
    Py.split_from f1 (String c t) s = Py.split_from f2 (String c t) s.
Proof.
  induction f1 as [|f1 IH]; intros f2 s H1 H2; [lia|].
  destruct f2 as [|f2]; [lia|].
  cbn [Py.split_from].
  destruct (Py.find (String c t) s) as [i|] eqn:E; [|reflexivity].
  f_equal.
  destruct s as [|a s]; [discriminate E|].
  apply IH; rewrite drop_length; cbn [String.length] in *; lia.
Qed.

Lemma split_app_sep (c : ascii) (t pre rest : string) :
  Py.occurs c t = false ->
  Py.contains (String c t) pre = false ->
  Py.split (String c t) (pre ++ String c t ++ rest)
  = pre :: Py.split (String c t) rest.
Proof.
  intros Hc Hn. unfold Py.split.
  change (Py.split_from (S ?n) ?sep ?s)
    with (match Py.find sep s with
          | None => [s]
          | Some i => Py.take i s
                      :: Py.split_from n sep (Py.drop (i + String.length sep) s)
          end) at 1.
  rewrite (find_app_sep c t pre rest Hc Hn).
  rewrite take_app, drop_add, drop_app, drop_app.
  f_equal. apply split_from_enough.
  - rewrite !length_app_str. cbn [String.length]. lia.
  - lia.
Qed.

End StringFacts.

(** ** The command channel *)

Section Channel.

Import OTMLDSA.

Lemma skip_lines_0 (tg : target) : skip_lines 0 tg = tg.
Proof. destruct tg; unfold skip_lines; cbn. now rewrite Nat.add_0_r. Qed.

Lemma skip_lines_S (k : nat) (tg : target) :
  skip_lines (S k) tg = skip_lines k (snd (readline tg)).
Proof. destruct tg; unfold skip_lines; cbn. f_equal. lia. Qed.

(** The text between the one [RESP_OK:] of a line and the [ CRC:] behind
    it. *)
Lemma response_body_shape (pre body post : string) :
  Py.contains "RESP_OK:" pre = false ->
  Py.contains "RESP_OK:" (body ++ " CRC:" ++ post) = false ->
  Py.contains " CRC:" body = false ->
  response_body (pre ++ "RESP_OK:" ++ body ++ " CRC:" ++ post) = Ok body.
Proof.
  intros Hpre Hone Hbody. unfold response_body.
  rewrite (split_app_sep "R" "ESP_OK:" pre _ eq_refl Hpre).
  rewrite (split_no_sep _ _ Hone). cbn [nth_error].
  rewrite (split_app_sep " " "CRC:" body post eq_refl Hbody).
  reflexivity.
Qed.

Lemma marker_in_shape (pre rest : string) :
  Py.contains "RESP_OK" (pre ++ "RESP_OK:" ++ rest) = true.
Proof. exact (contains_app "RESP_OK" pre (":" ++ rest)). Qed.

Variable json_loads : string -> option pyobj.

(** Lines without the marker are read one by one, each counting as an
    attempt. *)
Lemma read_result_loop_silent (num_attempts : Z) :
  forall (k fuel : nat) (read_counter : Z) (tg : target),
    (forall i : nat, (i < k)%nat ->
       Py.contains "RESP_OK" (rx tg (rd tg + i)%nat) = false) ->
    read_counter + Z.of_nat k <= num_attempts ->
    read_result_loop json_loads (k + fuel) num_attempts read_counter tg
    = read_result_loop json_loads fuel num_attempts
        (read_counter + Z.of_nat k) (skip_lines k tg).
Proof.
  induction k as [|k IH]; intros fuel c tg Hs Hc.
  - now rewrite skip_lines_0, Z.add_0_r.
  - cbn [Nat.add read_result_loop].
    destruct (Z.ltb_spec c num_attempts) as [_|]; [|lia].
    destruct (readline tg) as [line tg1] eqn:E.
    assert (line = rx tg (rd tg + 0)%nat) as ->
      by (rewrite Nat.add_0_r; now inversion E).
    rewrite (Hs 0%nat) by lia.
    assert (tg1 = snd (readline tg)) as -> by now rewrite E.
    rewrite IH.
    + rewrite skip_lines_S. f_equal. lia.
    + intros i Hi. cbn [readline snd rx rd].
      replace (S (rd tg) + i)%nat with (rd tg + S i)%nat by lia.
      apply Hs. lia.
    + lia.
Qed.

Lemma read_loop_silent (max_tries : Z) :
  forall (k fuel : nat) (it : Z) (tg : target),
    (forall i : nat, (i < k)%nat ->
       Py.contains "RESP_OK" (rx tg (rd tg + i)%nat) = false) ->
    0 <= it -> it + Z.of_nat k <= max_tries ->
    read_loop (k + fuel) max_tries it tg
    = read_loop fuel max_tries (it + Z.of_nat k) (skip_lines k tg).
Proof.
  induction k as [|k IH]; intros fuel c tg Hs H0 Hc.
  - now rewrite skip_lines_0, Z.add_0_r.
  - cbn [Nat.add read_loop].
    destruct (Z.eqb_spec c max_tries) as [|_]; [lia|]. cbn [negb].
    destruct (readline tg) as [line tg1] eqn:E.
    assert (line = rx tg (rd tg + 0)%nat) as ->
      by (rewrite Nat.add_0_r; now inversion E).
    rewrite (Hs 0%nat) by lia.
    assert (tg1 = snd (readline tg)) as -> by now rewrite E.
    rewrite IH.
    + rewrite skip_lines_S. f_equal. lia.
    + intros i Hi. cbn [readline snd rx rd].
      replace (S (rd tg) + i)%nat with (rd tg + S i)%nat by lia.
      apply Hs. lia.
    + lia.
    + lia.
Qed.

(** One iteration on a line that carries the marker. *)
Lemma read_result_loop_marker (fuel : nat) (num_attempts read_counter : Z)
    (tg : target) (json_string : string) :
  read_counter < num_attempts ->
  Py.contains "RESP_OK" (rx tg (rd tg)) = true ->
  response_body (rx tg (rd tg)) = Ok json_string ->
  read_result_loop json_loads (S fuel) num_attempts read_counter tg
  = if Py.contains "result" json_string then
      match json_loads json_string with
      | Some o =>
          match getitem o (str "result") with
          | Some v => Some (Ok v, skip_lines 1 tg)
          | None => Some (Raise ack_error, skip_lines 1 tg)
          end
      | None => Some (Raise ack_error, skip_lines 1 tg)
      end
    else read_result_loop json_loads fuel num_attempts read_counter
           (skip_lines 1 tg).
Proof.
  intros Hc Hm Hb. cbn [read_result_loop].
  destruct (Z.ltb_spec read_counter num_attempts) as [_|]; [|lia].
  unfold readline. rewrite Hm, Hb.
  replace (skip_lines 1 tg)
    with {| rx := rx tg; rd := S (rd tg); done := done tg;
            polls := polls tg; log := log tg |}
    by (unfold skip_lines; f_equal; lia).
  reflexivity.
Qed.

End Channel.

Section ChannelClaims.

Import OTMLDSA.

Variable json_loads : string -> option pyobj.

(** Lines that are passed over are read one by one; only those without the
    marker count as attempts. *)
Lemma read_result_loop_passed (num_attempts : Z) :
  forall (k fuel : nat) (read_counter : Z) (tg : target),
    (forall i : nat, (i < k)%nat -> passed_over (rx tg (rd tg + i)%nat) = true) ->
    read_counter + attempts_used (rx tg) (rd tg) k < num_attempts ->
    read_result_loop json_loads (k + fuel) num_attempts read_counter tg
    = read_result_loop json_loads fuel num_attempts
        (read_counter + attempts_used (rx tg) (rd tg) k) (skip_lines k tg).
Proof.
  assert (Hpos : forall lines k s, 0 <= attempts_used lines s k).
  { intros lines k; induction k as [|k IH]; intros s; cbn [attempts_used].
    - lia.
    - specialize (IH (S s)). destruct (Py.contains "RESP_OK" (lines s)); lia. }
  induction k as [|k IH]; intros fuel c tg Hs Hc.
  - cbn [attempts_used]. now rewrite skip_lines_0, Z.add_0_r.
  - cbn [attempts_used] in *.
    pose proof (Hpos (rx tg) k (S (rd tg))) as Hk.
    pose proof (Hs 0%nat ltac:(lia)) as H0. rewrite Nat.add_0_r in H0.
    unfold passed_over in H0.
    assert (Hrest : forall i : nat, (i < k)%nat ->
              passed_over (rx (skip_lines 1 tg) (rd (skip_lines 1 tg) + i)%nat) = true).
    { intros i Hi. cbn [skip_lines rx rd].
      replace (rd tg + 1 + i)%nat with (rd tg + S i)%nat by lia.
      apply Hs. lia. }
    assert (Hrd : rd (skip_lines 1 tg) = S (rd tg)) by (cbn; lia).
    destruct (Py.contains "RESP_OK" (rx tg (rd tg))) eqn:Hm.
    + destruct (response_body (rx tg (rd tg))) as [body|] eqn:Hb; [|discriminate].
      change (S k + fuel)%nat with (S (k + fuel)).
      rewrite (read_result_loop_marker json_loads _ _ _ _ body) by (assumption || lia).
      apply negb_true_iff in H0. rewrite H0.
      rewrite (IH fuel c (skip_lines 1 tg) Hrest);
        rewrite ?Hrd; cbn [skip_lines rx]; [|lia].
      rewrite skip_lines_S. f_equal.
      destruct tg; unfold skip_lines; cbn. f_equal. lia.
    + change (S k + fuel)%nat with (S (k + fuel)).
      cbn [read_result_loop].
      destruct (Z.ltb_spec c num_attempts) as [_|]; [|lia].
      unfold readline. rewrite Hm.
      replace {| rx := rx tg; rd := S (rd tg); done := done tg;
                 polls := polls tg; log := log tg |}
        with (skip_lines 1 tg) by (unfold skip_lines; f_equal; lia).
      rewrite (IH fuel (c + 1) (skip_lines 1 tg) Hrest);
        rewrite ?Hrd; cbn [skip_lines rx]; [|lia].
      rewrite skip_lines_S. f_equal; [lia|].
      destruct tg; unfold skip_lines; cbn. f_equal. lia.
Qed.

End ChannelClaims.

Section ChannelTheorems.

Import OTMLDSA.

Local Open Scope nat_scope.

(** C4.  When none of the first [num_attempts] lines carries the marker
    [RESP_OK], [ml_dsa_sca_read_response] reads exactly these lines and
    raises the acknowledge error; it returns no result. *)
Theorem ml_dsa_sca_read_response_no_marker :
  forall (json_loads : string -> option pyobj) (num_attempts : Z)
         (fuel : nat) (tg : target),
    (0 < num_attempts)%Z ->
    (forall i : nat, (Z.of_nat i < num_attempts)%Z ->
       Py.contains "RESP_OK" (rx tg (rd tg + i)) = false) ->
    Z.to_nat num_attempts < fuel ->
    ml_dsa_sca_read_response json_loads fuel num_attempts tg
    = Some (Raise ack_error, skip_lines (Z.to_nat num_attempts) tg).
Proof.
  intros json_loads n fuel tg Hn Hs Hf. unfold ml_dsa_sca_read_response.
  replace fuel with (Z.to_nat n + S (fuel - S (Z.to_nat n))) by lia.
  rewrite read_result_loop_silent.
  - cbn [read_result_loop]. rewrite Z2Nat.id, Z.add_0_l, Z.ltb_irrefl by lia.
    reflexivity.
  - intros i Hi. apply Hs. lia.
  - lia.
Qed.

Lemma ml_dsa_sca_read_response_no_marker_witness :
  ml_dsa_sca_read_response Json.loads 4 3 (target_of ["boot"; "b''"])
  = Some (Raise ack_error, skip_lines 3 (target_of ["boot"; "b''"])).
Proof.
  apply (ml_dsa_sca_read_response_no_marker Json.loads 3 4
           (target_of ["boot"; "b''"])).
  - reflexivity.
  - intros [|[|[|i]]] _; reflexivity.
  - apply le_n.
Defined.

(** C10.  When none of the first [max_tries] lines carries the marker,
    [read_response] returns the empty text and raises nothing; so does
    [init] over uJSON, whose budget is 30 lines, after it has written its
    two frames. *)
Theorem read_response_no_marker_empty :
  (forall (max_tries : Z) (fuel : nat) (tg : target),
     (1 <= max_tries)%Z ->
     (forall i : nat, (Z.of_nat i < max_tries)%Z ->
        Py.contains "RESP_OK" (rx tg (rd tg + i)) = false) ->
     Z.to_nat max_tries < fuel ->
     read_response fuel max_tries tg
     = Some (Ok "", skip_lines (Z.to_nat max_tries) tg))
  /\
  (forall (fuel : nat) (tg : target),
     (forall i : nat, i < 30 ->
        Py.contains "RESP_OK" (rx tg (rd tg + i)) = false) ->
     30 < fuel ->
     init Json.dumps (__init__ "ujson") fuel tg
     = Some (Ok (Some ""),
             skip_lines 30
               (write (Py.dq ++ "Init" ++ Py.dq)
                  (write (Py.dq ++ "MlDsaSca" ++ Py.dq) (sleep 10 tg))))).
Proof.
  assert (H : forall (max_tries : Z) (fuel : nat) (tg : target),
     (1 <= max_tries)%Z ->
     (forall i : nat, (Z.of_nat i < max_tries)%Z ->
        Py.contains "RESP_OK" (rx tg (rd tg + i)) = false) ->
     Z.to_nat max_tries < fuel ->
     read_response fuel max_tries tg
     = Some (Ok "", skip_lines (Z.to_nat max_tries) tg)).
  { intros n fuel tg Hn Hs Hf. unfold read_response.
    replace fuel with (Z.to_nat n + S (fuel - S (Z.to_nat n))) by lia.
    rewrite read_loop_silent.
    - cbn [read_loop]. rewrite Z2Nat.id, Z.add_0_l, Z.eqb_refl by lia.
      reflexivity.
    - intros i Hi. apply Hs. lia.
    - lia.
    - lia. }
  split; [exact H|].
  intros fuel tg Hs Hf.
  unfold init, __init__, _ujson_ml_dsa_sca_cmd, write_json.
  cbn [String.eqb simple_serial negb].
  change (encode_ascii (Json.dumps (PyStr (str "MlDsaSca"))))
    with (Ok (Py.dq ++ "MlDsaSca" ++ Py.dq)%string).
  change (encode_ascii (Json.dumps (PyStr (str "Init"))))
    with (Ok (Py.dq ++ "Init" ++ Py.dq)%string).
  cbv iota beta.
  rewrite (H 30%Z) by (try lia; intros i Hi; apply (Hs i); lia).
  reflexivity.
Qed.

Lemma read_response_no_marker_empty_witness :
  read_response 2 1 (target_of ["noise"])
  = Some (Ok "", skip_lines 1 (target_of ["noise"]))
  /\ init Json.dumps (__init__ "ujson") 31 (target_of [])
     = Some (Ok (Some ""),
             skip_lines 30
               (write (Py.dq ++ "Init" ++ Py.dq)
                  (write (Py.dq ++ "MlDsaSca" ++ Py.dq)
                     (sleep 10 (target_of []))))).
Proof.
  split.
  - apply (proj1 read_response_no_marker_empty 1%Z 2 (target_of ["noise"])).
    + apply Z.le_refl.
    + intros [|[|i]] _; reflexivity.
    + apply le_n.
  - apply (proj2 read_response_no_marker_empty 31 (target_of [])).
    + intros i _. cbn. destruct i as [|[|i]]; reflexivity.
    + apply le_n.
Defined.

End ChannelTheorems.

Section ResultTheorems.

Import OTMLDSA.

Local Open Scope nat_scope.

(** The iteration that reads line [k], after [k] lines that were passed
    over. *)
Lemma ml_dsa_sca_read_response_reach (json_loads : string -> option pyobj)
    (num_attempts : Z) (k fuel : nat) (tg : target) :
  (forall i : nat, i < k -> passed_over (rx tg (rd tg + i)) = true) ->
  (attempts_used (rx tg) (rd tg) k < num_attempts)%Z ->
  ml_dsa_sca_read_response json_loads (k + fuel) num_attempts tg
  = read_result_loop json_loads fuel num_attempts
      (attempts_used (rx tg) (rd tg) k) (skip_lines k tg).
Proof.
  intros Hp Hu. unfold ml_dsa_sca_read_response.
  now rewrite read_result_loop_passed by (assumption || lia).
Qed.

Lemma skip_lines_skip (a b : nat) (tg : target) :
  skip_lines a (skip_lines b tg) = skip_lines (b + a) tg.
Proof. destruct tg; unfold skip_lines; cbn. f_equal. lia. Qed.

(** C1, amended.  Let line [k] be read after [k] lines that were passed
    over, carry the marker, and have the body [json_string] between
    [RESP_OK:] and [ CRC:].  If the body mentions [result] and is not
    parseable, the call raises the acknowledge error on that line, having
    read [k + 1] lines.  If the body does not mention [result], the line is
    passed over, parseable or not: the loop goes on behind it with the
    attempts used so far. *)
Theorem ml_dsa_sca_read_response_malformed_body :
  forall (json_loads : string -> option pyobj) (num_attempts : Z)
         (k fuel : nat) (tg : target) (json_string : string),
    (forall i : nat, i < k -> passed_over (rx tg (rd tg + i)) = true) ->
    (attempts_used (rx tg) (rd tg) k < num_attempts)%Z ->
    Py.contains "RESP_OK" (rx tg (rd tg + k)) = true ->
    response_body (rx tg (rd tg + k)) = Ok json_string ->
    k < fuel ->
    (Py.contains "result" json_string = true ->
     json_loads json_string = None ->
     ml_dsa_sca_read_response json_loads fuel num_attempts tg
     = Some (Raise ack_error, skip_lines (S k) tg))
    /\
    (Py.contains "result" json_string = false ->
     ml_dsa_sca_read_response json_loads fuel num_attempts tg
     = read_result_loop json_loads (fuel - S k) num_attempts
         (attempts_used (rx tg) (rd tg) k) (skip_lines (S k) tg)).
Proof.
  intros json_loads n k fuel tg body Hp Hu Hm Hb Hf.
  replace fuel with (k + S (fuel - S k)) at 1 2 by lia.
  rewrite ml_dsa_sca_read_response_reach by assumption.
  rewrite (read_result_loop_marker json_loads _ _ _ _ body);
    [| assumption | exact Hm | exact Hb].
  rewrite skip_lines_skip, Nat.add_1_r.
  split.
  - intros Hr Hl. now rewrite Hr, Hl.
  - intros Hr. now rewrite Hr.
Qed.

Lemma ml_dsa_sca_read_response_malformed_body_witness :
  ml_dsa_sca_read_response Json.loads 3 100
    (target_of ["boot"; line_not_json; line_broken_result])
  = Some (Raise ack_error,
          skip_lines 3 (target_of ["boot"; line_not_json; line_broken_result]))
  /\
  ml_dsa_sca_read_response Json.loads 3 100 (target_of ["boot"; line_not_json])
  = read_result_loop Json.loads 1 100 1
      (skip_lines 2 (target_of ["boot"; line_not_json])).
Proof.
  split.
  - refine (proj1 (ml_dsa_sca_read_response_malformed_body Json.loads 100 2 3
              (target_of ["boot"; line_not_json; line_broken_result])
              "{result}" _ _ _ _ _) _ _).
    + intros [|[|i]] Hi; [reflexivity | reflexivity | lia].
    + reflexivity.
    + reflexivity.
    + reflexivity.
    + apply le_n.
    + reflexivity.
    + reflexivity.
  - refine (proj2 (ml_dsa_sca_read_response_malformed_body Json.loads 100 1 3
              (target_of ["boot"; line_not_json])
              "{not-json}" _ _ _ _ _) _).
    + intros [|i] Hi; [reflexivity | lia].
    + reflexivity.
    + reflexivity.
    + reflexivity.
    + lia.
    + reflexivity.
Defined.

(** C1 as stated fails on [RESP_OK:{not-json} CRC:x]: the line carries the
    marker and its body is not parseable, yet the call goes on reading.  It
    returns the result of the next line, or, when nothing else arrives,
    raises only after 100 more lines. *)
Lemma ml_dsa_sca_read_response_not_json_counterexample :
  Py.contains "RESP_OK" line_not_json = true
  /\ response_body line_not_json = Ok "{not-json}"
  /\ Json.loads "{not-json}" = None
  /\ ml_dsa_sca_read_response Json.loads 100 100
       (target_of [line_not_json; line_result_42])
     = Some (Ok (PyInt 42), skip_lines 2 (target_of [line_not_json; line_result_42]))
  /\ ml_dsa_sca_read_response Json.loads 200 100 (target_of [line_not_json])
     = Some (Raise ack_error, skip_lines 101 (target_of [line_not_json])).
Proof. repeat split; vm_compute; reflexivity. Qed.





End ResultTheorems.

(** ** Starting a workload *)

Section Orchestrator.

Import OTMLDSA.

Lemma frames_app (a b : list event) : frames (a ++ b) = (frames a ++ frames b)%list.
Proof.
  induction a as [|e a IH]; [reflexivity|].
  destruct e; cbn [frames app]; now rewrite IH.
Qed.

(** C7.  [ml_dsa_vec_add_batch_fvsr([1, 2, 3, 4], 10)] succeeds and writes
    exactly three frames: the encoded tag [MlDsaSca], the encoded tag
    [VecAddFvsr] and the encoded object with [data] = [1, 2, 3, 4],
    [data_length] = 16 = 4 * 4 and [iterations] = 10, with a sleep of 10 ms
    before the first and before the third. *)
Theorem ml_dsa_vec_add_batch_fvsr_frames :
  forall tg : target,
    let r := ml_dsa_vec_add_batch_fvsr Json.dumps [1; 2; 3; 4] (PyInt 10) tg in
    fst r = Ok tt
    /\ log (snd r)
       = (log tg ++ [Sleep 10;
                     Write (Json.dumps (PyStr (str "MlDsaSca")));
                     Write (Json.dumps (PyStr (str "VecAddFvsr")));
                     Sleep 10;
                     Write (Json.dumps payload_1234)])%list
    /\ frames (log (snd r))
       = (frames (log tg)
         ++ [(Py.dq ++ "MlDsaSca" ++ Py.dq)%string;
             (Py.dq ++ "VecAddFvsr" ++ Py.dq)%string;
             ("{" ++ Py.dq ++ "data" ++ Py.dq ++ ": [1, 2, 3, 4], "
                  ++ Py.dq ++ "data_length" ++ Py.dq ++ ": 16, "
                  ++ Py.dq ++ "iterations" ++ Py.dq ++ ": 10}")%string])%list
    /\ Json.loads (Json.dumps payload_1234) = Some payload_1234
    /\ dict_get (str "data_length") [(str "data_length", PyInt 16)]
       = Some (PyInt (4 * Z.of_nat (List.length [1; 2; 3; 4]))).
Proof.
  intros tg r.
  assert (E : r = (Ok tt,
                   write (Json.dumps payload_1234)
                     (sleep 10
                        (write (Json.dumps (PyStr (str "VecAddFvsr")))
                           (write (Json.dumps (PyStr (str "MlDsaSca")))
                              (sleep 10 tg)))))).
  { subst r.
    unfold ml_dsa_vec_add_batch_fvsr, _ujson_ml_dsa_sca_cmd, write_json.
    change (encode_ascii (Json.dumps (PyStr (str "MlDsaSca"))))
      with (Ok (Json.dumps (PyStr (str "MlDsaSca")))).
    cbv iota beta.
    change (encode_ascii (Json.dumps (PyStr (str "VecAddFvsr"))))
      with (Ok (Json.dumps (PyStr (str "VecAddFvsr")))).
    cbv iota beta.
    change (PyDict
              [(str "data", PyList (map PyInt [1; 2; 3; 4]));
               (str "data_length", PyInt (4 * Z.of_nat (List.length [1; 2; 3; 4])));
               (str "iterations", PyInt 10)]) with payload_1234.
    change (encode_ascii (Json.dumps payload_1234))
      with (Ok (Json.dumps payload_1234)).
    reflexivity. }
  rewrite E. cbn [fst snd].
  assert (L : log (write (Json.dumps payload_1234)
                     (sleep 10
                        (write (Json.dumps (PyStr (str "VecAddFvsr")))
                           (write (Json.dumps (PyStr (str "MlDsaSca")))
                              (sleep 10 tg)))))
              = (log tg ++ [Sleep 10;
                    Write (Json.dumps (PyStr (str "MlDsaSca")));
                    Write (Json.dumps (PyStr (str "VecAddFvsr")));
                    Sleep 10;
                    Write (Json.dumps payload_1234)])%list).
  { unfold write, sleep, emit. cbn [log]. now rewrite <- !app_assoc. }
  repeat split.
  - exact L.
  - rewrite L, frames_app. reflexivity.
Qed.

End Orchestrator.

(** ** The capture controller *)

Section Controller.

Import Husky.

Local Open Scope nat_scope.

Lemma after_reads_0 (s : scope_t) : after_reads 0 s = s.
Proof. destruct s; unfold after_reads; cbn. now rewrite Nat.add_0_r. Qed.

Lemma after_reads_S (k : nat) (s : scope_t) :
  after_reads (S k) s = after_reads k (snd (read_adc_locked s)).
Proof. destruct s; unfold after_reads; cbn. f_equal. lia. Qed.

(** Readings that find the ADC unlocked, while the count stays within 3. *)
Lemma wait_adc_lock_unlocked :
  forall (k fuel : nat) (ping_cnt : Z) (s : scope_t) (slept : list event),
    (forall n : nat, n < k -> adc_locked s (lock_reads s + n) = false) ->
    (ping_cnt + Z.of_nat k <= 3)%Z ->
    (0 <= ping_cnt)%Z ->
    wait_adc_lock (k + fuel) ping_cnt s slept
    = wait_adc_lock fuel (ping_cnt + Z.of_nat k) (after_reads k s)
        (slept ++ repeat (Sleep 500) k).
Proof.
  induction k as [|k IH]; intros fuel c s slept Hu Hc H0.
  - cbn [repeat]. now rewrite after_reads_0, Z.add_0_r, app_nil_r.
  - cbn [Nat.add wait_adc_lock].
    destruct (read_adc_locked s) as [locked s1] eqn:E.
    assert (locked = false) as ->.
    { specialize (Hu 0 ltac:(lia)). rewrite Nat.add_0_r in Hu.
      unfold read_adc_locked in E. now inversion E. }
    cbn [negb]. destruct (Z.eqb_spec c 3) as [|_]; [lia|].
    assert (s1 = snd (read_adc_locked s)) as -> by now rewrite E.
    rewrite IH.
    + rewrite after_reads_S, <- app_assoc. cbn [repeat app].
      replace (c + 1 + Z.of_nat k)%Z with (c + Z.of_nat (S k))%Z by lia.
      reflexivity.
    + intros n Hn. cbn [read_adc_locked snd adc_locked lock_reads].
      replace (S (lock_reads s) + n) with (lock_reads s + S n) by lia.
      apply Hu. lia.
    + lia.
    + lia.
Qed.

Lemma prepared_adc_locked (self : t) (dev : scope_t) :
  adc_locked (prepared self dev) = adc_locked dev
  /\ lock_reads (prepared self dev) = lock_reads dev.
Proof.
  unfold prepared, configure.
  destruct (Z.leb 0 (offset_samples self)); split; reflexivity.
Qed.

(** What the instrument has been told when the wait for the lock starts. *)
Lemma prepared_settings (self : t) (dev : scope_t) :
  getattr "gain.db" (prepared self dev) = Some (scope_gain self)
  /\ getattr "clock.clkgen_src" (prepared self dev) = Some (PyStr (str "extclk"))
  /\ getattr "clock.clkgen_freq" (prepared self dev) = Some (PyInt (clkgen_freq self))
  /\ getattr "clock.adc_mul" (prepared self dev) = Some (PyInt (adc_mul self))
  /\ getattr "adc.samples" (prepared self dev) = Some (PyInt (num_samples self))
  /\ getattr "adc.offset" (prepared self dev)
     = Some (PyInt (Z.max 0 (offset_samples self)))
  /\ getattr "trigger.triggers" (prepared self dev) = Some (PyStr (str "tio4")).
Proof.
  unfold prepared, configure, getattr.
  destruct (Z.leb_spec 0 (offset_samples self)); cbn;
    repeat split; do 2 f_equal; lia.
Qed.

Lemma wait_adc_lock_timeout (fuel : nat) (s : scope_t) (slept : list event) :
  (forall n : nat, n < 4 -> adc_locked s (lock_reads s + n) = false) ->
  4 <= fuel ->
  wait_adc_lock fuel 0 s slept
  = Some (Raise lock_error, after_reads 4 s, (slept ++ repeat (Sleep 500) 3)%list).
Proof.
  intros Hu Hf.
  replace fuel with (3 + S (fuel - 4)) by lia.
  rewrite wait_adc_lock_unlocked; [| intros n Hn; apply Hu; lia | lia | lia].
  cbn [wait_adc_lock]. unfold read_adc_locked.
  cbn [after_reads adc_locked lock_reads].
  rewrite (Hu 3) by lia. cbn [negb Z.of_nat].
  change (0 + Z.pos (Pos.of_succ_nat 2) =? 3)%Z with true. cbv iota.
  do 3 f_equal. unfold after_reads. cbn. f_equal. lia.
Qed.

Lemma wait_adc_lock_locked (k fuel : nat) (s : scope_t) (slept : list event) :
  k <= 3 ->
  (forall n : nat, n < k -> adc_locked s (lock_reads s + n) = false) ->
  adc_locked s (lock_reads s + k) = true ->
  k < fuel ->
  wait_adc_lock fuel 0 s slept
  = Some (Ok tt, after_reads (S k) s, (slept ++ repeat (Sleep 500) k)%list).
Proof.
  intros Hk Hu Hl Hf.
  replace fuel with (k + S (fuel - S k)) by lia.
  rewrite wait_adc_lock_unlocked; [| assumption | lia | lia].
  cbn [wait_adc_lock]. unfold read_adc_locked.
  cbn [after_reads adc_locked lock_reads].
  rewrite Hl. cbn [negb].
  do 3 f_equal. unfold after_reads. cbn. f_equal. lia.
Qed.

Lemma prepared_settings_rest (self : t) (dev : scope_t) :
  getattr "adc.basic_mode" (prepared self dev) = Some (PyStr (str "rising_edge"))
  /\ getattr "clock.extclk_monitor_enabled" (prepared self dev)
     = Some (PyBool false)
  /\ getattr "io.tio1" (prepared self dev) = Some (PyStr (str "serial_tx"))
  /\ getattr "io.tio2" (prepared self dev) = Some (PyStr (str "serial_rx"))
  /\ getattr "io.hs2" (prepared self dev) = Some (PyStr (str "disabled")).
Proof.
  unfold prepared, configure, getattr.
  destruct (Z.leb 0 (offset_samples self)); cbn; repeat split.
Qed.

Lemma after_reads_getattr (name : string) (k : nat) (s : scope_t) :
  getattr name (after_reads k s) = getattr name s.
Proof. reflexivity. Qed.

(** C9.  A Husky whose ADC is unlocked at each of the first four readings
    makes [initialize_scope] raise the lock error after these four
    readings, that is after 3 retries with a sleep of 500 ms each.  When
    the ADC is locked at reading [k <= 3], counted from 0, the call
    succeeds after [k] retries and returns the object [h] whose [scope] is
    the instrument as the [k + 1] readings left it, with every other field
    as in [self]; this instrument carries every setting that
    [initialize_scope] writes. *)
Theorem initialize_scope_lock :
  forall (fuel : nat) (self : t) (dev : scope_t),
    _is_husky dev = true ->
    ((forall n : nat, n < 4 -> adc_locked dev (lock_reads dev + n) = false) ->
     4 <= fuel ->
     initialize_scope fuel self dev
     = Some (Raise lock_error, after_reads 4 (prepared self dev),
             repeat (Sleep 500) 3))
    /\
    (forall k : nat,
       k <= 3 ->
       (forall n : nat, n < k -> adc_locked dev (lock_reads dev + n) = false) ->
       adc_locked dev (lock_reads dev + k) = true ->
       k < fuel ->
       exists (h : t) (s : scope_t),
         initialize_scope fuel self dev = Some (Ok h, s, repeat (Sleep 500) k)
         /\ scope h = Some s
         /\ h = with_scope self s
         /\ s = after_reads (S k) (prepared self dev)
         /\ attrs s = attrs (prepared self dev)
         /\ lock_reads s = lock_reads dev + S k
         /\ (scope_gain h = scope_gain self
             /\ clkgen_freq h = clkgen_freq self
             /\ adc_mul h = adc_mul self
             /\ sampling_rate h = sampling_rate self
             /\ target_freq h = target_freq self
             /\ offset_samples h = offset_samples self
             /\ num_samples h = num_samples self
             /\ num_segments h = num_segments self)
         /\ (getattr "gain.db" s = Some (scope_gain self)
             /\ getattr "adc.basic_mode" s = Some (PyStr (str "rising_edge"))
             /\ getattr "clock.clkgen_src" s = Some (PyStr (str "extclk"))
             /\ getattr "clock.clkgen_freq" s = Some (PyInt (clkgen_freq self))
             /\ getattr "clock.adc_mul" s = Some (PyInt (adc_mul self))
             /\ getattr "clock.extclk_monitor_enabled" s = Some (PyBool false)
             /\ getattr "adc.samples" s = Some (PyInt (num_samples self))
             /\ getattr "adc.offset" s
                = Some (PyInt (Z.max 0 (offset_samples self)))
             /\ getattr "trigger.triggers" s = Some (PyStr (str "tio4"))
             /\ getattr "io.tio1" s = Some (PyStr (str "serial_tx"))
             /\ getattr "io.tio2" s = Some (PyStr (str "serial_rx"))
             /\ getattr "io.hs2" s = Some (PyStr (str "disabled")))).
Proof.
  intros fuel self dev Hh.
  assert (E : initialize_scope fuel self dev
              = match wait_adc_lock fuel 0 (prepared self dev) [] with
                | None => None
                | Some (Raise e, s', slept) => Some (Raise e, s', slept)
                | Some (Ok _, s', slept) => Some (Ok (with_scope self s'), s', slept)
                end).
  { unfold initialize_scope. fold (prepared self dev).
    change (_is_husky (setattr "adc.basic_mode" (PyStr (str "rising_edge"))
              (setattr "gain.db" (scope_gain self) dev))) with (_is_husky dev).
    now rewrite Hh. }
  destruct (prepared_adc_locked self dev) as [Ha Hr].
  split.
  - intros Hu Hf. rewrite E, wait_adc_lock_timeout; [reflexivity | | exact Hf].
    intros n Hn. rewrite Ha, Hr. now apply Hu.
  - intros k Hk Hu Hl Hf.
    exists (with_scope self (after_reads (S k) (prepared self dev))),
           (after_reads (S k) (prepared self dev)).
    split.
    { rewrite E, (wait_adc_lock_locked k); try assumption; [reflexivity | |].
      - intros n Hn. rewrite Ha, Hr. now apply Hu.
      - now rewrite Ha, Hr. }
    split; [reflexivity|]. split; [reflexivity|]. split; [reflexivity|].
    split; [reflexivity|].
    split; [cbn [after_reads lock_reads]; now rewrite Hr|].
    split; [repeat split|].
    rewrite !after_reads_getattr.
    destruct (prepared_settings self dev) as (H1 & H2 & H3 & H4 & H5 & H6 & H7).
    destruct (prepared_settings_rest self dev) as (R1 & R2 & R3 & R4 & R5).
    repeat split; assumption.
Qed.

Lemma initialize_scope_lock_witness :
  initialize_scope 4 bench_husky (after_reads 0 never_locked)
  = Some (Raise lock_error,
          after_reads 4 (prepared bench_husky (after_reads 0 never_locked)),
          repeat (Sleep 500) 3)
  /\
  exists (h : t) (s : scope_t),
    initialize_scope 4 bench_plan (locked_at 2)
    = Some (Ok h, s, repeat (Sleep 500) 2)
    /\ scope h = Some s
    /\ h = with_scope bench_plan s
    /\ s = after_reads 3 (prepared bench_plan (locked_at 2))
    /\ attrs s = attrs (prepared bench_plan (locked_at 2))
    /\ lock_reads s = lock_reads (locked_at 2) + 3
    /\ (scope_gain h = scope_gain bench_plan
        /\ clkgen_freq h = clkgen_freq bench_plan
        /\ adc_mul h = adc_mul bench_plan
        /\ sampling_rate h = sampling_rate bench_plan
        /\ target_freq h = target_freq bench_plan
        /\ offset_samples h = offset_samples bench_plan
        /\ num_samples h = num_samples bench_plan
        /\ num_segments h = num_segments bench_plan)
    /\ (getattr "gain.db" s = Some (scope_gain bench_plan)
        /\ getattr "adc.basic_mode" s = Some (PyStr (str "rising_edge"))
        /\ getattr "clock.clkgen_src" s = Some (PyStr (str "extclk"))
        /\ getattr "clock.clkgen_freq" s = Some (PyInt (clkgen_freq bench_plan))
        /\ getattr "clock.adc_mul" s = Some (PyInt (adc_mul bench_plan))
        /\ getattr "clock.extclk_monitor_enabled" s = Some (PyBool false)
        /\ getattr "adc.samples" s = Some (PyInt (num_samples bench_plan))
        /\ getattr "adc.offset" s
           = Some (PyInt (Z.max 0 (offset_samples bench_plan)))
        /\ getattr "trigger.triggers" s = Some (PyStr (str "tio4"))
        /\ getattr "io.tio1" s = Some (PyStr (str "serial_tx"))
        /\ getattr "io.tio2" s = Some (PyStr (str "serial_rx"))
        /\ getattr "io.hs2" s = Some (PyStr (str "disabled"))).
Proof.
  split.
  - apply (proj1 (initialize_scope_lock 4 bench_husky
                    (after_reads 0 never_locked) eq_refl)).
    + intros n _. reflexivity.
    + apply le_n.
  - apply (proj2 (initialize_scope_lock 4 bench_plan (locked_at 2) eq_refl) 2).
    + lia.
    + intros [|[|n]] Hn; [reflexivity | reflexivity | lia].
    + reflexivity.
    + lia.
Defined.

End Controller.

Section Capture.

Import Husky.

Local Open Scope nat_scope.

(** A target that never reports done keeps the wait going, whatever the
    number of iterations allowed. *)
Lemma wait_target_done_never :
  forall (fuel : nat) (i : Z) (tg : target),
    (forall n : nat, done tg (polls tg + n) = false) ->
    wait_target_done fuel i tg = None.
Proof.
  induction fuel as [|fuel IH]; intros i tg Hn; [reflexivity|].
  cbn [wait_target_done]. unfold is_done.
  pose proof (Hn 0) as H0. rewrite Nat.add_0_r in H0. rewrite H0. cbn [negb].
  apply IH. intros n.
  destruct (100 <? i + 1)%Z; cbn [sleep print emit done polls];
    replace (S (polls tg) + n) with (polls tg + S n) by lia; apply Hn.
Qed.

(** A target that reports done at poll [k] for the first time ends the
    wait after [k + 1] polls, however large [k] is. *)
Lemma wait_target_done_first :
  forall (k fuel : nat) (i : Z) (tg : target),
    (forall n : nat, n < k -> done tg (polls tg + n) = false) ->
    done tg (polls tg + k) = true ->
    k < fuel ->
    exists tg' : target,
      wait_target_done fuel i tg = Some tg'
      /\ polls tg' = polls tg + S k
      /\ done tg' = done tg.
Proof.
  induction k as [|k IH]; intros fuel i tg Hn Hd Hf.
  - destruct fuel as [|fuel]; [lia|].
    cbn [wait_target_done]. unfold is_done.
    rewrite Nat.add_0_r in Hd. rewrite Hd. cbn [negb].
    eexists. split; [reflexivity|]. cbn. split; [lia | reflexivity].
  - destruct fuel as [|fuel]; [lia|].
    cbn [wait_target_done]. unfold is_done.
    pose proof (Hn 0 ltac:(lia)) as H0. rewrite Nat.add_0_r in H0.
    rewrite H0. cbn [negb].
    match goal with
    | |- exists tg', wait_target_done fuel ?j ?t = _ /\ _ =>
        destruct (IH fuel j t) as (tg' & E & Hp & Hdone)
    end.
    + intros n Hlt.
      destruct (100 <? i + 1)%Z; cbn [sleep print emit done polls];
        replace (S (polls tg) + n) with (polls tg + S n) by lia; apply Hn; lia.
    + destruct (100 <? i + 1)%Z; cbn [sleep print emit done polls];
        replace (S (polls tg) + k) with (polls tg + S k) by lia; exact Hd.
    + lia.
    + exists tg'. split; [exact E|].
      destruct (100 <? i + 1)%Z; cbn [sleep print emit done polls] in Hp, Hdone;
        split; try assumption; lia.
Qed.

(** In single mode, with a scope bound, the call returns the one trace
    once the target reports done, and does not return when it never
    does. *)
Lemma capture_single_mode (fuel : nat) (self : t) (s : scope_t) (tg : target) :
  scope self = Some s -> num_segments self = 1%Z ->
  (forall k : nat,
     (forall n : nat, n < k -> done tg (polls tg + n) = false) ->
     done tg (polls tg + k) = true ->
     k < fuel ->
     exists tg' : target,
       capture_and_transfer_waves fuel self tg = Some (Ok [last_trace s], tg')
       /\ polls tg' = polls tg + S k)
  /\
  ((forall n : nat, done tg (polls tg + n) = false) ->
   capture_and_transfer_waves fuel self tg = None).
Proof.
  intros Hs Hn. unfold capture_and_transfer_waves. rewrite Hn, Hs.
  cbn [Z.eqb Pos.eqb]. split.
  - intros k Hu Hd Hf.
    destruct (wait_target_done_first k fuel 0 tg Hu Hd Hf) as (tg' & E & Hp & _).
    rewrite E. eexists. split; [reflexivity|].
    destruct (capture_ret s); exact Hp.
  - intros Hnever. now rewrite wait_target_done_never.
Qed.

(** C2 fails on the code.  With a target that never reports done, the call
    in single mode does not return, whatever the number of iterations
    allowed.  With a target that reports done at poll 150, it polls 151
    times, prints the warning at each of the polls 101 to 150, and returns
    the one trace only then. *)
Theorem capture_and_transfer_waves_unbounded :
  (forall fuel : nat,
     capture_and_transfer_waves fuel bench_husky never_done = None)
  /\
  (exists tg' : target,
     capture_and_transfer_waves 200 bench_husky (done_at 150)
     = Some (Ok [[7; 8; 9]%Z], tg')
     /\ polls tg' = 151
     /\ printed (log tg')
        = repeat "Warning: Target did not finish operation" 50).
Proof.
  split.
  - intros fuel.
    apply (proj2 (capture_single_mode fuel bench_husky bench_scope never_done
                    eq_refl eq_refl)).
    reflexivity.
  - eexists. split; [vm_compute; reflexivity|].
    split; vm_compute; reflexivity.
Qed.

End Capture.

(** ** Rounding *)

Section Rounding.

Import PyNum.

Local Open Scope Z_scope.

#[local] Instance fl_Proper : Proper (Qeq ==> eq) fl.
Proof. intros x y H. unfold fl. now rewrite (Qred_complete x y H). Qed.

Lemma Qred_inject_Z (z : Z) : Qred (inject_Z z) = inject_Z z.
Proof. apply Qcanon.Qred_identity. cbn. apply Z.gcd_1_r. Qed.

Lemma round_half_even_1 (n : Z) : round_half_even n 1 = n.
Proof.
  unfold round_half_even. rewrite Z.div_1_r, Z.mod_1_r. reflexivity.
Qed.

Lemma ilog2_1 (a : Z) : 0 < a -> ilog2 a 1 = Z.log2 a.
Proof.
  intros Ha. unfold ilog2. change (Z.log2 1) with 0. rewrite Z.sub_0_r.
  pose proof (Z.log2_nonneg a) as Hl.
  destruct (Z.leb_spec 0 (Z.log2 a)) as [_|]; [|lia].
  pose proof (Z.log2_spec a Ha) as [Hs _].
  destruct (Z.leb_spec (1 * 2 ^ Z.log2 a) a) as [_|]; [reflexivity | lia].
Qed.

Lemma sgn_mul_abs (z : Z) : Z.sgn z * Z.abs z = z.
Proof. destruct z; reflexivity. Qed.

(** An integer below [2 ^ 53] in magnitude is a [float]. *)
Lemma fl_inject_Z (z : Z) :
  Z.abs z < 2 ^ 53 -> fl (inject_Z z) = Some (inject_Z z).
Proof.
  intros Hz. unfold fl. rewrite Qred_inject_Z.
  cbn [Qnum Qden inject_Z].
  destruct (Z.eqb_spec z 0) as [->|Hnz]; [reflexivity|].
  assert (Ha : 0 < Z.abs z) by lia.
  rewrite (ilog2_1 _ Ha).
  assert (Hl : 0 <= Z.log2 (Z.abs z) < 53).
  { split; [apply Z.log2_nonneg|]. now apply Z.log2_lt_pow2. }
  rewrite Z.max_l by lia.
  set (e := Z.log2 (Z.abs z) - 52).
  assert (He : -52 <= e <= 0) by (unfold e; lia).
  replace ((971 <? e) || ((e =? 971) && _))%bool with false
    by (destruct (Z.ltb_spec 971 e), (Z.eqb_spec e 971); try lia; reflexivity).
  f_equal.
  etransitivity; [|apply (Qred_inject_Z z)]. apply Qred_complete.
  unfold scale.
  destruct (Z.leb_spec 0 e) as [H0|H0].
  - assert (e = 0) as -> by lia.
    change (2 ^ 0) with 1. rewrite !Z.mul_1_r, round_half_even_1.
    now rewrite sgn_mul_abs.
  - rewrite round_half_even_1.
    assert (Hp : 0 < 2 ^ (- e)) by (apply Z.pow_pos_nonneg; lia).
    unfold Qeq. cbn [Qnum Qden inject_Z].
    rewrite Z2Pos.id by exact Hp.
    rewrite Z.mul_assoc, sgn_mul_abs. ring.
Qed.

Lemma fl_int (x : Q) (z : Z) :
  x == inject_Z z -> Z.abs z < 2 ^ 53 -> fl x = Some (inject_Z z).
Proof. intros H Hz. rewrite H. now apply fl_inject_Z. Qed.




Lemma Qtrunc_inject_Z (z : Z) : Qtrunc (inject_Z z) = z.
Proof. unfold Qtrunc. cbn. apply Z.quot_1_r. Qed.


(** On every quotient [n / d] and every product [n * (1 / d)] with
    [n, d <= 48], and in both signs, [fl] gives what the division and the
    multiplication of the Standard Library's binary64 model give. *)
Lemma fl_agrees_with_SpecFloat :
  forallb (fun p : Z * Z =>
             let (n, d) := p in
             same_float (fl (inject_Z n / inject_Z d))
                        (of_spec (SFdiv 53 1024 (b64 n) (b64 d)))
             && same_float (fl (inject_Z (- n) / inject_Z d))
                           (of_spec (SFdiv 53 1024 (b64 (- n)) (b64 d)))
             && match fl (1 / inject_Z d) with
                | Some r =>
                    same_float (fl (inject_Z n * r))
                      (of_spec (SFmul 53 1024 (b64 n)
                                  (SFdiv 53 1024 (b64 1) (b64 d))))
                | None => false
                end)%bool
          (grid 48) = true.
Proof. vm_compute. reflexivity. Qed.

(** The same at the ends of the range: integers above [2 ^ 53], the
    overflow threshold, and the subnormal numbers. *)
Lemma fl_agrees_on_large :
  forallb (fun z : Z => same_float (fl (inject_Z z)) (of_spec (b64 z)))
    [2 ^ 53 + 1; 2 ^ 53 + 3; - (2 ^ 54 + 2); 2 ^ 54 + 6; 2 ^ 200 + 1;
     2 ^ 1024 - 2 ^ 970 - 1; 2 ^ 1024 - 2 ^ 970; 2 ^ 1024; - 2 ^ 1030]
  = true
  /\ forallb (fun e : Z =>
                same_float (fl (3 # Z.to_pos (2 ^ e)))
                  (of_spec (SFdiv 53 1024 (b64 3) (b64 (2 ^ e)))))
       [1; 52; 53; 600; 1000]
     = true
  /\ forallb (fun e : Z =>
                same_float (fl (3 # Z.to_pos (2 ^ (1000 + e))))
                  (of_spec (SFdiv 53 1024
                              (SFdiv 53 1024 (b64 3) (b64 (2 ^ 1000)))
                              (b64 (2 ^ e)))))
       [20; 23; 72; 73; 74; 75; 76; 77; 80]
     = true.
Proof. repeat split; vm_compute; reflexivity. Qed.

End Rounding.

(** ** Rounding stays within bounds *)

Section RoundingBounds.

Import PyNum.

Local Open Scope Z_scope.




Lemma scale_opp (z e : Z) : scale (- z) e = (- scale z e)%Q.
Proof.
  unfold scale. destruct (0 <=? e).
  - now rewrite Z.mul_opp_l.
  - reflexivity.
Qed.

(** Rounding is odd. *)
Lemma fl_opp (x : Q) : fl (- x) = option_map Qopp (fl x).
Proof.
  unfold fl. rewrite Qred_opp.
  cbn [Qnum Qden Qopp].
  rewrite Z.abs_opp, Z.sgn_opp, Z.mul_opp_l.
  destruct (Z.eqb_spec (Qnum (Qred x)) 0) as [E|E].
  - rewrite E. reflexivity.
  - destruct (Z.eqb_spec (- Qnum (Qred x)) 0) as [E'|_]; [lia|].
    destruct (_ || _)%bool; [reflexivity|].
    cbn [option_map]. now rewrite scale_opp, Qred_opp.
Qed.


End RoundingBounds.

(** ** Floor division and the derived constants *)

Section ClockPlan.

Import PyNum Husky.

Local Open Scope Z_scope.

Lemma Qtrunc_div_int (X : Z) (p : positive) :
  0 <= X -> Qtrunc (inject_Z X / inject_Z (Z.pos p)) = X / Z.pos p.
Proof.
  intros HX. unfold Qtrunc, Qdiv, Qmult, Qinv. cbn [Qnum Qden inject_Z].
  rewrite Z.mul_1_r, Pos.mul_1_l. apply Z.quot_div_nonneg; lia.
Qed.

Lemma fmod_int (X w : Z) :
  0 <= X -> 0 < w ->
  fmod (inject_Z X) (inject_Z w) == inject_Z (X - X / w * w).
Proof.
  intros HX Hw. unfold fmod. rewrite Qred_correct.
  destruct w as [|p|p]; try lia.
  rewrite (Qtrunc_div_int X p HX).
  unfold Qminus. now rewrite <- inject_Z_mult, <- inject_Z_opp, <- inject_Z_plus.
Qed.

Lemma Qltb_inject_Z_0 (z : Z) : 0 <= z -> Qltb (inject_Z z) 0 = false.
Proof.
  intros Hz. unfold Qltb. apply negb_false_iff, Qle_bool_iff.
  unfold Qle. cbn. lia.
Qed.

#[local] Instance Qltb_Proper : Proper (Qeq ==> Qeq ==> eq) Qltb.
Proof. intros a b H c d H'. unfold Qltb. now rewrite H, H'. Qed.

Lemma is_zero_inject_Z (z : Z) : is_zero (inject_Z z) = (z =? 0).
Proof.
  unfold is_zero, Qeq_bool. cbn [Qnum Qden inject_Z].
  rewrite Z.mul_1_r. change (0 * 1) with 0.
  destruct (Z.eqb_spec z 0) as [->|H]; [reflexivity|].
  destruct z; try reflexivity; now elim H.
Qed.

(** The floor division of two integers that are [float]s is the exact
    one. *)
Lemma float_floor_div_int (X w : Z) :
  0 <= X < 2 ^ 53 -> 0 < w < 2 ^ 53 ->
  float_floor_div (inject_Z X) (inject_Z w) = Some (inject_Z (X / w)).
Proof.
  intros HX Hw. unfold float_floor_div.
  pose proof (fmod_int X w (proj1 HX) (proj1 Hw)) as Hmod.
  set (q := X / w) in *. set (r := X - q * w) in *.
  assert (Hr : 0 <= r < w).
  { unfold r, q. pose proof (Z.mod_pos_bound X w (proj1 Hw)).
    rewrite Z.mod_eq in H by lia. lia. }
  assert (Hq : 0 <= q <= X).
  { unfold q. split; [apply Z.div_pos; lia|].
    apply Z.div_le_upper_bound; nia. }
  set (mod_ := fmod (inject_Z X) (inject_Z w)) in *.
  assert (H1 : fl (inject_Z X - mod_) = Some (inject_Z (X - r))).
  { apply fl_int; [|lia]. rewrite Hmod. unfold Qminus.
    now rewrite <- inject_Z_opp, <- inject_Z_plus. }
  rewrite H1. cbn [bind_inf].
  assert (H2 : fl (inject_Z (X - r) / inject_Z w) = Some (inject_Z q)).
  { apply fl_int; [|lia].
    replace (X - r) with (q * w) by (unfold r; lia).
    rewrite inject_Z_mult. apply Qdiv_mult_l.
    intros E. unfold Qeq in E. cbn in E. lia. }
  rewrite H2. cbn [bind_inf].
  rewrite (Qltb_inject_Z_0 w) by lia.
  assert (H4 : Qltb mod_ 0 = false)
    by (rewrite Hmod; apply Qltb_inject_Z_0; lia).
  rewrite H4.
  cbn [Bool.eqb negb]. rewrite andb_false_r. cbn [bind_inf].
  rewrite is_zero_inject_Z.
  destruct (Z.eqb_spec q 0) as [->|Hq0]; [reflexivity|]. cbn [negb].
  rewrite Qfloor_Z.
  assert (H3 : fl (inject_Z q - inject_Z q) = Some (inject_Z 0)).
  { apply fl_int; [|reflexivity]. unfold Qminus. apply Qplus_opp_r. }
  rewrite H3. reflexivity.
Qed.

Lemma Qtrunc_div_int_neg (X : Z) (p : positive) :
  0 <= X -> Qtrunc (inject_Z X / inject_Z (Z.neg p)) = - (X / Z.pos p).
Proof.
  intros HX. unfold Qtrunc, Qdiv, Qmult, Qinv. cbn [Qnum Qden inject_Z].
  rewrite Pos.mul_1_l.
  replace (X * Z.neg 1) with (- X) by lia.
  rewrite Z.quot_opp_l by lia. f_equal. apply Z.quot_div_nonneg; lia.
Qed.

Lemma Qltb_inject_Z_neg (z : Z) : z < 0 -> Qltb (inject_Z z) 0 = true.
Proof.
  intros Hz. unfold Qltb. apply negb_true_iff.
  destruct (Qle_bool 0 (inject_Z z)) eqn:E; [|reflexivity].
  apply Qle_bool_iff in E. unfold Qle in E. cbn in E. lia.
Qed.

(** The last step of [float_floor_div] on a quotient that is integral. *)
Lemma snap_int (d : Z) :
  Z.abs d < 2 ^ 53 ->
  (if negb (is_zero (inject_Z d)) then
     bind_inf (fl (inject_Z d - inject_Z (Qfloor (inject_Z d)))) (fun gap =>
     if Qltb (1 # 2) gap then fl (inject_Z (Qfloor (inject_Z d)) + 1)
     else Some (inject_Z (Qfloor (inject_Z d))))
   else Some 0%Q)
  = Some (inject_Z d).
Proof.
  intros Hd. rewrite is_zero_inject_Z.
  destruct (Z.eqb_spec d 0) as [->|_]; [reflexivity|]. cbn [negb].
  rewrite Qfloor_Z.
  assert (H3 : fl (inject_Z d - inject_Z d) = Some (inject_Z 0)).
  { apply fl_int; [|reflexivity]. unfold Qminus. apply Qplus_opp_r. }
  rewrite H3. reflexivity.
Qed.

(** The same for a negative divisor, where the quotient is moved down by
    one when the division leaves a remainder. *)
Lemma float_floor_div_int_neg (X v : Z) :
  0 <= X < 2 ^ 53 -> 0 < v < 2 ^ 53 ->
  float_floor_div (inject_Z X) (inject_Z (- v)) = Some (inject_Z (X / (- v))).
Proof.
  intros HX Hv. unfold float_floor_div.
  set (q0 := X / v). set (r := X - q0 * v).
  assert (Hr : 0 <= r < v).
  { unfold r, q0. pose proof (Z.mod_pos_bound X v (proj1 Hv)).
    rewrite Z.mod_eq in H by lia. lia. }
  assert (Hq : 0 <= q0 <= X).
  { unfold q0. split; [apply Z.div_pos; lia|].
    apply Z.div_le_upper_bound; nia. }
  assert (Hmod : fmod (inject_Z X) (inject_Z (- v)) == inject_Z r).
  { unfold fmod. rewrite Qred_correct.
    destruct v as [|p|p]; try lia.
    change (- Z.pos p) with (Z.neg p).
    rewrite (Qtrunc_div_int_neg X p (proj1 HX)). fold q0.
    unfold Qminus.
    rewrite <- inject_Z_mult, <- inject_Z_opp, <- inject_Z_plus.
    apply inject_Z_injective. unfold r. lia. }
  set (mod_ := fmod (inject_Z X) (inject_Z (- v))) in *.
  assert (H1 : fl (inject_Z X - mod_) = Some (inject_Z (X - r))).
  { apply fl_int; [|lia]. rewrite Hmod. unfold Qminus.
    now rewrite <- inject_Z_opp, <- inject_Z_plus. }
  rewrite H1. cbn [bind_inf].
  assert (H2 : fl (inject_Z (X - r) / inject_Z (- v)) = Some (inject_Z (- q0))).
  { apply fl_int; [|lia].
    replace (X - r) with (- q0 * - v) by (unfold r; lia).
    rewrite inject_Z_mult. apply Qdiv_mult_l.
    intros E. unfold Qeq in E. cbn in E. lia. }
  rewrite H2. cbn [bind_inf].
  rewrite (Qltb_inject_Z_neg (- v)) by lia.
  assert (H4 : Qltb mod_ 0 = false)
    by (rewrite Hmod; apply Qltb_inject_Z_0; lia).
  assert (H5 : is_zero mod_ = (r =? 0))
    by (unfold is_zero; rewrite Hmod; apply is_zero_inject_Z).
  rewrite H4, H5. cbn [Bool.eqb negb]. rewrite andb_true_r.
  destruct (Z.eqb_spec r 0) as [Hr0|Hr0]; cbn [negb bind_inf].
  - replace (X / - v) with (- q0)
      by (apply (Z.div_unique X (- v) (- q0) 0); [right; lia | unfold r in Hr0; lia]).
    apply snap_int. lia.
  - assert (H6 : fl (inject_Z (- q0) - 1) = Some (inject_Z (- q0 - 1))).
    { apply fl_int; [|lia]. unfold Qminus.
      change (- (1))%Q with (inject_Z (- 1)). now rewrite <- inject_Z_plus. }
    rewrite H6. cbn [bind_inf].
    replace (X / - v) with (- q0 - 1)
      by (apply (Z.div_unique X (- v) (- q0 - 1) (r - v));
          [right; lia | unfold r; lia]).
    apply snap_int. lia.
Qed.

(** [int(200e6 // pll_frequency)] for a frequency that is not zero and
    below [2 ^ 53] in magnitude is the floor division of the integers. *)
Lemma adc_mul_exact (pll_frequency : Z) :
  pll_frequency <> 0 -> Z.abs pll_frequency < 2 ^ 53 ->
  floordiv_float_int SAMPLING_RATE_MAX pll_frequency
  = Ok (Some (inject_Z (200000000 / pll_frequency)))
  /\ int_of_float (Some (inject_Z (200000000 / pll_frequency)))
     = Ok (200000000 / pll_frequency).
Proof.
  intros Hnz Hp. split.
  - unfold floordiv_float_int, float_of_int.
    rewrite fl_inject_Z by lia.
    rewrite is_zero_inject_Z.
    destruct (Z.eqb_spec pll_frequency 0) as [|_]; [lia|].
    change SAMPLING_RATE_MAX with (inject_Z 200000000).
    destruct (Z.lt_ge_cases 0 pll_frequency) as [Hpos|Hneg].
    + now rewrite float_floor_div_int by (split; try lia; reflexivity).
    + replace pll_frequency with (- - pll_frequency) by lia.
      now rewrite float_floor_div_int_neg by (split; try lia; reflexivity).
  - cbn [int_of_float]. now rewrite Qtrunc_inject_Z.
Qed.

Lemma float_of_int_exact (z : Z) :
  Z.abs z < 2 ^ 53 -> float_of_int z = Ok (inject_Z z).
Proof. intros Hz. unfold float_of_int. now rewrite fl_inject_Z. Qed.



Lemma round_up_3_multiple (n : Z) : (round_up_3 n) mod 3 = 0.
Proof.
  unfold round_up_3. destruct (Z.eqb_spec (n mod 3) 0) as [E|E]; cbn [negb].
  - exact E.
  - pose proof (Z.mod_pos_bound n 3 ltac:(lia)).
    rewrite (Z.div_mod n 3) at 1 by lia.
    replace (3 * (n / 3) + n mod 3 + 3 - n mod 3) with ((n / 3 + 1) * 3) by lia.
    apply Z.mod_mul. lia.
Qed.

Lemma round_up_3_ge (n : Z) : n <= round_up_3 n < n + 3.
Proof.
  unfold round_up_3. pose proof (Z.mod_pos_bound n 3 ltac:(lia)).
  destruct (Z.eqb_spec (n mod 3) 0); cbn [negb]; lia.
Qed.

End ClockPlan.

Section ClockPlanTheorems.

Import PyNum Husky.

Local Open Scope Z_scope.

(** The constructor once the ADC multiplier is known. *)
Lemma init_unfold (scope_gain : pyobj)
    (num_cycles num_segments offset_cycles pll_frequency target_clk_mult : Z)
    (q : option Q) (mul : Z) :
  floordiv_float_int SAMPLING_RATE_MAX pll_frequency = Ok q ->
  int_of_float q = Ok mul ->
  __init__ scope_gain num_cycles num_segments offset_cycles pll_frequency
    target_clk_mult
  = bind (sampling_target_ratio (pll_frequency * mul)
            (pll_frequency * target_clk_mult)) (fun ratio =>
    bind (samples_of_cycles offset_cycles ratio) (fun offset_samples =>
    bind (samples_of_cycles num_cycles ratio) (fun num_samples =>
    Ok {| scope := None;
          scope_gain := scope_gain;
          clkgen_freq := pll_frequency;
          adc_mul := mul;
          sampling_rate := pll_frequency * mul;
          target_freq := pll_frequency * target_clk_mult;
          offset_samples := offset_samples;
          num_samples := round_up_3 num_samples;
          num_segments := num_segments |}))).
Proof. intros E1 E2. unfold __init__. rewrite E1. cbn [bind]. now rewrite E2. Qed.

(** C5.  With a PLL frequency of 48 MHz, the maximum sampling rate of
    200 MHz, the target clock multiplier 2 and 100 cycles, the constructor
    derives the ADC multiplier 4, the sampling rate 192 MHz, the target
    frequency 96 MHz, the ratio 2.0 and 200 samples, which the step to the
    next multiple of 3 turns into 201.  The offset does not enter these
    values. *)
Theorem husky_init_48MHz :
  SAMPLING_RATE_MAX = 200000000%Q
  /\ floordiv_float_int SAMPLING_RATE_MAX 48000000 = Ok (Some 4%Q)
  /\ sampling_target_ratio 192000000 96000000 = Ok 2%Q
  /\ samples_of_cycles 100 2%Q = Ok 200
  /\ round_up_3 200 = 201
  /\ (forall (scope_gain : pyobj) (num_segments : Z),
        __init__ scope_gain 100 num_segments 0 48000000 2
        = Ok {| scope := None;
                scope_gain := scope_gain;
                clkgen_freq := 48000000;
                adc_mul := 4;
                sampling_rate := 192000000;
                target_freq := 96000000;
                offset_samples := 0;
                num_samples := 201;
                num_segments := num_segments |})
  /\ (forall (scope_gain : pyobj) (num_segments offset_cycles : Z) (h : t),
        __init__ scope_gain 100 num_segments offset_cycles 48000000 2 = Ok h ->
        adc_mul h = 4 /\ sampling_rate h = 192000000
        /\ target_freq h = 96000000 /\ num_samples h = 201).
Proof.
  assert (E1 : floordiv_float_int SAMPLING_RATE_MAX 48000000 = Ok (Some 4%Q))
    by (vm_compute; reflexivity).
  assert (E2 : int_of_float (Some 4%Q) = Ok 4) by reflexivity.
  assert (E3 : sampling_target_ratio (48000000 * 4) (48000000 * 2) = Ok 2%Q)
    by (vm_compute; reflexivity).
  assert (E4 : samples_of_cycles 100 2%Q = Ok 200) by (vm_compute; reflexivity).
  assert (E5 : samples_of_cycles 0 2%Q = Ok 0) by (vm_compute; reflexivity).
  split; [reflexivity|]. split; [exact E1|]. split; [exact E3|].
  split; [exact E4|]. split; [reflexivity|]. split.
  - intros g segs. rewrite (init_unfold _ _ _ _ _ _ _ _ E1 E2), E3.
    cbn [bind]. rewrite E5, E4. reflexivity.
  - intros g segs offset_cycles h.
    rewrite (init_unfold _ _ _ _ _ _ _ _ E1 E2), E3. cbn [bind].
    destruct (samples_of_cycles offset_cycles 2) as [o|]; [|discriminate].
    cbn [bind]. rewrite E4. cbn [bind]. intros [= <-].
    repeat split.
Qed.

Lemma husky_init_48MHz_witness :
  adc_mul bench_plan = 4 /\ sampling_rate bench_plan = 192000000
  /\ target_freq bench_plan = 96000000 /\ num_samples bench_plan = 201.
Proof.
  apply (proj2 (proj2 (proj2 (proj2 (proj2 (proj2 husky_init_48MHz)))))
           (PyInt 30) 1 (-40) bench_plan).
  vm_compute. reflexivity.
Defined.












(** The bound on the sampling rate rests on the frequency being an [int].
    For the [float] nearest to [1.73e-10], which lies in (0, 200 MHz], the
    floor division gives an ADC multiplier above [2 ^ 53] and the product
    is [200000000 + 2 ^ -25], above the maximum. *)
Lemma clock_of_float_exceeds :
  exists pll_frequency sampling_rate : Q,
    fl (173 # 1000000000000) = Some pll_frequency
    /\ (0 < pll_frequency)%Q
    /\ (pll_frequency <= SAMPLING_RATE_MAX)%Q
    /\ clock_of_float pll_frequency
       = Ok (1156069364161849856, Some sampling_rate)
    /\ (sampling_rate == SAMPLING_RATE_MAX + (1 # 33554432))%Q
    /\ (SAMPLING_RATE_MAX < sampling_rate)%Q.
Proof.
  eexists. eexists. split; [vm_compute; reflexivity|].
  split; [reflexivity|]. split; [discriminate|].
  split; [vm_compute; reflexivity|].
  split; reflexivity.
Qed.

End ClockPlanTheorems.

(** * Further properties *)

(** ** The other batch commands *)

Section BatchCommands.

Import OTMLDSA.

Lemma encode_ascii_ok (s : string) :
  forallb is_ascii (list_ascii_of_string s) = true -> encode_ascii s = Ok s.
Proof. intros H. unfold encode_ascii. now rewrite H. Qed.

Lemma log_emit5 (tg : target) (a b c d e : event) :
  log (emit e (emit d (emit c (emit b (emit a tg)))))
  = (log tg ++ [a; b; c; d; e])%list.
Proof. unfold emit. cbn [log]. now rewrite <- !app_assoc. Qed.

Lemma emit_keeps_input (e : event) (tg : target) :
  rx (emit e tg) = rx tg /\ rd (emit e tg) = rd tg
  /\ done (emit e tg) = done tg /\ polls (emit e tg) = polls tg.
Proof. repeat split. Qed.

(** X1.  Each of the seven batch commands that send a vector, given an
    encoder whose three texts are ASCII, succeeds and adds to the log a
    sleep of 10 ms, the encoded [MlDsaSca], its own encoded tag, a sleep of
    10 ms and the encoded payload, whose [data_length] is four times the
    length of the vector.  It reads no line. *)
Theorem vec_batch_commands_log :
  forall (json_dumps : pyobj -> string)
         (cmd : list Z -> pyobj -> target -> outcome unit * target)
         (tag : string) (data : list Z) (num_segments : pyobj) (tg : target),
    In (cmd, tag) (vec_commands json_dumps) ->
    ascii_on json_dumps
      [PyStr (str "MlDsaSca"); PyStr (str tag); vec_payload data num_segments]
    = true ->
    fst (cmd data num_segments tg) = Ok tt
    /\ log (snd (cmd data num_segments tg))
       = (log tg
          ++ command_log json_dumps tag (vec_payload data num_segments))%list
    /\ rd (snd (cmd data num_segments tg)) = rd tg.
Proof.
  intros json_dumps cmd tag data n tg Hin Ha.
  unfold ascii_on in Ha. cbn [forallb] in Ha.
  apply andb_prop in Ha. destruct Ha as [H1 Ha].
  apply andb_prop in Ha. destruct Ha as [H2 Ha].
  apply andb_prop in Ha. destruct Ha as [H3 _].
  apply encode_ascii_ok in H1, H2, H3.
  unfold vec_commands in Hin. cbn [In] in Hin.
  repeat (destruct Hin as [Hin|Hin];
          [injection Hin as <- <-;
           unfold ml_dsa_vec_reject_batch_fvsr, ml_dsa_vec_add_batch_fvsr,
             ml_dsa_vec_sub_batch_fvsr, ml_dsa_vec_mul_batch_fvsr,
             ml_dsa_vec_mac_batch_fvsr, ml_dsa_vec_ntt_batch_fvsr,
             ml_dsa_vec_intt_batch_fvsr, _ujson_ml_dsa_sca_cmd, write_json;
           fold (vec_payload data n);
           rewrite H1; cbv iota beta; rewrite H2; cbv iota beta; rewrite H3;
           cbn [fst snd]; unfold write, sleep;
           split; [reflexivity | split; [apply log_emit5 | reflexivity]]
          |]).
  contradiction.
Qed.

Lemma vec_batch_commands_log_witness :
  fst (ml_dsa_vec_ntt_batch_fvsr Json.dumps [5; -7; 0] (PyInt 3) (target_of [])) = Ok tt
  /\ log (snd (ml_dsa_vec_ntt_batch_fvsr Json.dumps [5; -7; 0] (PyInt 3) (target_of [])))
     = (log (target_of [])
        ++ command_log Json.dumps "NttFvsr" (vec_payload [5; -7; 0] (PyInt 3)))%list
  /\ rd (snd (ml_dsa_vec_ntt_batch_fvsr Json.dumps [5; -7; 0] (PyInt 3) (target_of [])))
     = rd (target_of []).
Proof.
  apply (vec_batch_commands_log Json.dumps
           (ml_dsa_vec_ntt_batch_fvsr Json.dumps) "NttFvsr" [5; -7; 0]
           (PyInt 3) (target_of [])).
  - cbn. do 5 right. left. reflexivity.
  - vm_compute. reflexivity.
Defined.

(** X2.  [ml_dsa_decompose_batch_fvsr] sends its [data] as it is and
    announces the length 4 whatever the [data] is. *)
Theorem decompose_batch_log :
  forall (json_dumps : pyobj -> string) (data num_segments : pyobj)
         (tg : target),
    ascii_on json_dumps
      [PyStr (str "MlDsaSca"); PyStr (str "DecomposeFvsr");
       PyDict [(str "data", data); (str "data_length", PyInt 4);
               (str "iterations", num_segments)]]
    = true ->
    fst (ml_dsa_decompose_batch_fvsr json_dumps data num_segments tg) = Ok tt
    /\ log (snd (ml_dsa_decompose_batch_fvsr json_dumps data num_segments tg))
       = (log tg
          ++ command_log json_dumps "DecomposeFvsr"
               (PyDict [(str "data", data); (str "data_length", PyInt 4);
                        (str "iterations", num_segments)]))%list.
Proof.
  intros json_dumps data n tg Ha.
  unfold ascii_on in Ha. cbn [forallb] in Ha.
  apply andb_prop in Ha. destruct Ha as [H1 Ha].
  apply andb_prop in Ha. destruct Ha as [H2 Ha].
  apply andb_prop in Ha. destruct Ha as [H3 _].
  apply encode_ascii_ok in H1, H2, H3.
  unfold ml_dsa_decompose_batch_fvsr, _ujson_ml_dsa_sca_cmd, write_json.
  rewrite H1; cbv iota beta; rewrite H2; cbv iota beta; rewrite H3.
  cbn [fst snd]. unfold write, sleep.
  split; [reflexivity | apply log_emit5].
Qed.

Lemma decompose_batch_log_witness :
  fst (ml_dsa_decompose_batch_fvsr Json.dumps
         (PyList [PyInt 1; PyInt 2; PyInt 3]) (PyInt 8) (target_of [])) = Ok tt
  /\ log (snd (ml_dsa_decompose_batch_fvsr Json.dumps
                 (PyList [PyInt 1; PyInt 2; PyInt 3]) (PyInt 8) (target_of [])))
     = (log (target_of [])
        ++ command_log Json.dumps "DecomposeFvsr"
             (PyDict [(str "data", PyList [PyInt 1; PyInt 2; PyInt 3]);
                      (str "data_length", PyInt 4);
                      (str "iterations", PyInt 8)]))%list.
Proof.
  apply (decompose_batch_log Json.dumps (PyList [PyInt 1; PyInt 2; PyInt 3])
           (PyInt 8) (target_of [])).
  vm_compute. reflexivity.
Defined.

End BatchCommands.

(** ** The two readers on every stream *)

Section Readers.

Import OTMLDSA.

Local Open Scope nat_scope.

(** Lines without the marker are read one by one as long as the count does
    not meet [max_tries]. *)
Lemma read_loop_unmet (max_tries : Z) :
  forall (k fuel : nat) (it : Z) (tg : target),
    (forall i : nat, i < k ->
       Py.contains "RESP_OK" (rx tg (rd tg + i)) = false) ->
    (forall j : nat, j < k -> (it + Z.of_nat j)%Z <> max_tries) ->
    read_loop (k + fuel) max_tries it tg
    = read_loop fuel max_tries (it + Z.of_nat k) (skip_lines k tg).
Proof.
  induction k as [|k IH]; intros fuel c tg Hs Hc.
  - now rewrite skip_lines_0, Z.add_0_r.
  - cbn [Nat.add read_loop].
    pose proof (Hc 0 ltac:(lia)) as H0. rewrite Z.add_0_r in H0.
    destruct (Z.eqb_spec c max_tries) as [|_]; [contradiction|]. cbn [negb].
    unfold readline.
    pose proof (Hs 0 ltac:(lia)) as Hl. rewrite Nat.add_0_r in Hl. rewrite Hl.
    rewrite IH.
    + replace (c + 1 + Z.of_nat k)%Z with (c + Z.of_nat (S k))%Z by lia.
      f_equal. unfold skip_lines. cbn. f_equal. lia.
    + intros i Hi. cbn [rx rd].
      replace (S (rd tg) + i) with (rd tg + S i) by lia. apply Hs. lia.
    + intros j Hj. specialize (Hc (S j) ltac:(lia)). lia.
Qed.

(** The line that ends the loop of [read_response]. *)
Lemma read_loop_marker_line :
  forall (max_tries : Z) (k fuel : nat) (tg : target)
         (pre body post : string),
    (max_tries < 0 \/ Z.of_nat k < max_tries)%Z ->
    (forall i : nat, i < k ->
       Py.contains "RESP_OK" (rx tg (rd tg + i)) = false) ->
    rx tg (rd tg + k) = (pre ++ "RESP_OK:" ++ body ++ " CRC:" ++ post)%string ->
    Py.contains "RESP_OK:" pre = false ->
    Py.contains "RESP_OK:" (body ++ " CRC:" ++ post) = false ->
    Py.contains " CRC:" body = false ->
    k < fuel ->
    read_loop fuel max_tries 0 tg = Some (Ok body, skip_lines (S k) tg).
Proof.
  intros n k fuel tg pre body post Hn Hs Hl Hpre Hone Hcrc Hf.
  replace fuel with (k + S (fuel - S k)) by lia.
  rewrite read_loop_unmet; [| exact Hs | intros j Hj; lia].
  cbn [read_loop].
  destruct (Z.eqb_spec (0 + Z.of_nat k) n) as [|_]; [lia|]. cbn [negb].
  unfold readline. cbn [skip_lines rx rd].
  rewrite Hl, marker_in_shape, response_body_shape by assumption.
  do 2 f_equal. unfold skip_lines. cbn. f_equal. lia.
Qed.

(** X3.  [read_response] returns what lies between [RESP_OK:] and [ CRC:]
    in the first line that carries the marker, when this line comes within
    the budget or the budget is negative; it has then read the lines up to
    that one, and no more. *)
Theorem read_response_first_marker :
  forall (max_tries : Z) (k fuel : nat) (tg : target)
         (pre body post : string),
    (max_tries < 0 \/ Z.of_nat k < max_tries)%Z ->
    (forall i : nat, i < k ->
       Py.contains "RESP_OK" (rx tg (rd tg + i)) = false) ->
    rx tg (rd tg + k) = (pre ++ "RESP_OK:" ++ body ++ " CRC:" ++ post)%string ->
    Py.contains "RESP_OK:" pre = false ->
    Py.contains "RESP_OK:" (body ++ " CRC:" ++ post) = false ->
    Py.contains " CRC:" body = false ->
    k < fuel ->
    read_response fuel max_tries tg = Some (Ok body, skip_lines (S k) tg).
Proof.
  intros n k fuel tg pre body post Hn Hs Hl Hpre Hone Hcrc Hf.
  unfold read_response.
  now apply (read_loop_marker_line n k fuel tg pre body post).
Qed.

Lemma read_response_first_marker_witness :
  read_response 3 (-1) (target_of ["boot"; "b''"; line_device_id])
  = Some (Ok ("{" ++ Py.dq ++ "device_id" ++ Py.dq ++ ":[1,2]}")%string,
          skip_lines 3 (target_of ["boot"; "b''"; line_device_id])).
Proof.
  apply (read_response_first_marker (-1) 2 3
           (target_of ["boot"; "b''"; line_device_id])
           "" ("{" ++ Py.dq ++ "device_id" ++ Py.dq ++ ":[1,2]}")%string "99").
  - left. reflexivity.
  - intros [|[|i]] Hi; [reflexivity | reflexivity | lia].
  - reflexivity.
  - reflexivity.
  - reflexivity.
  - reflexivity.
  - lia.
Defined.

(** X4.  With a budget that is not negative, [read_response] returns on
    every stream, after at most [max_tries] lines, and changes nothing of
    the target but the number of lines read.  It stops at the first line
    that carries the marker, with what this line gives, or after
    [max_tries] lines without the marker, with the empty text. *)
Theorem read_response_returns :
  forall (max_tries : Z) (fuel : nat) (tg : target),
    (0 <= max_tries)%Z ->
    Z.to_nat max_tries < fuel ->
    exists (r : outcome string) (m : nat),
      read_response fuel max_tries tg = Some (r, skip_lines m tg)
      /\ (Z.of_nat m <= max_tries)%Z
      /\ (forall i : nat, S i < m ->
            Py.contains "RESP_OK" (rx tg (rd tg + i)) = false)
      /\ (((Z.of_nat m = max_tries)%Z /\ r = Ok ""%string
           /\ forall i : nat, i < m ->
                Py.contains "RESP_OK" (rx tg (rd tg + i)) = false)
          \/ (exists j : nat,
                m = S j
                /\ Py.contains "RESP_OK" (rx tg (rd tg + j)) = true
                /\ r = response_body (rx tg (rd tg + j)))).
Proof.
  intros n fuel tg Hn Hf. unfold read_response.
  assert (G : forall (d fuel : nat) (it : Z) (tg : target),
             (0 <= it <= n)%Z -> Z.to_nat (n - it) = d -> d < fuel ->
             exists (r : outcome string) (m : nat),
               read_loop fuel n it tg = Some (r, skip_lines m tg)
               /\ (Z.of_nat m <= n - it)%Z
               /\ (forall i : nat, S i < m ->
                     Py.contains "RESP_OK" (rx tg (rd tg + i)) = false)
               /\ (((Z.of_nat m = n - it)%Z /\ r = Ok ""%string
                    /\ forall i : nat, i < m ->
                         Py.contains "RESP_OK" (rx tg (rd tg + i)) = false)
                   \/ (exists j : nat,
                         m = S j
                         /\ Py.contains "RESP_OK" (rx tg (rd tg + j)) = true
                         /\ r = response_body (rx tg (rd tg + j))))).
  { clear fuel tg Hf. induction d as [|d IH]; intros fuel it tg Hit Hd Hf.
    - destruct fuel as [|fuel]; [lia|]. cbn [read_loop].
      destruct (Z.eqb_spec it n) as [_|]; [|lia]. cbn [negb].
      exists (Ok ""%string), 0. rewrite skip_lines_0.
      split; [reflexivity|]. split; [lia|].
      split; [intros i Hi; lia|].
      left. split; [lia|]. split; [reflexivity | intros i Hi; lia].
    - destruct fuel as [|fuel]; [lia|]. cbn [read_loop].
      destruct (Z.eqb_spec it n) as [|_]; [lia|]. cbn [negb].
      unfold readline.
      destruct (Py.contains "RESP_OK" (rx tg (rd tg))) eqn:Hl.
      + exists (response_body (rx tg (rd tg))), 1.
        split; [do 2 f_equal; unfold skip_lines; f_equal; lia|].
        split; [lia|]. split; [intros i Hi; lia|].
        right. exists 0. rewrite Nat.add_0_r.
        split; [reflexivity|]. split; [exact Hl | reflexivity].
      + destruct (IH fuel (it + 1)%Z
                    {| rx := rx tg; rd := S (rd tg); done := done tg;
                       polls := polls tg; log := log tg |})
          as (r & m & E & Hm & Hbefore & Hend); [lia | lia | lia |].
        cbn [rx rd] in Hbefore, Hend.
        assert (Hshift : forall i : nat,
                   Py.contains "RESP_OK" (rx tg (rd tg + S i))
                   = Py.contains "RESP_OK" (rx tg (S (rd tg) + i)))
          by (intros i; do 2 f_equal; lia).
        exists r, (S m). rewrite E.
        split; [do 2 f_equal; unfold skip_lines; cbn; f_equal; lia|].
        split; [lia|].
        split.
        { intros [|i] Hi.
          - now rewrite Nat.add_0_r.
          - rewrite Hshift. apply Hbefore. lia. }
        destruct Hend as [(Hmax & Hr & Hall)|(j & Hj & Hmark & Hr)].
        * left. split; [lia|]. split; [exact Hr|].
          intros [|i] Hi.
          -- now rewrite Nat.add_0_r.
          -- rewrite Hshift. apply Hall. lia.
        * right. exists (S j). split; [lia|].
          rewrite Hshift. split; [exact Hmark|].
          rewrite Hr. do 2 f_equal. lia. }
  destruct (G (Z.to_nat n) fuel 0%Z tg) as (r & m & E & Hm & Hbefore & Hend);
    [lia | f_equal; lia | exact Hf |].
  exists r, m. split; [exact E|]. split; [lia|]. split; [exact Hbefore|].
  destruct Hend as [(Hmax & Hr & Hall)|Hmark].
  - left. split; [lia|]. split; [exact Hr | exact Hall].
  - right. exact Hmark.
Qed.

Lemma read_response_returns_witness :
  exists (r : outcome string) (m : nat),
    read_response 4 3 (target_of ["boot"; line_device_id; line_status])
    = Some (r, skip_lines m (target_of ["boot"; line_device_id; line_status]))
    /\ (Z.of_nat m <= 3)%Z
    /\ (forall i : nat, S i < m ->
          Py.contains "RESP_OK"
            (rx (target_of ["boot"; line_device_id; line_status])
               (rd (target_of ["boot"; line_device_id; line_status]) + i))
          = false)
    /\ (((Z.of_nat m = 3)%Z /\ r = Ok ""%string
         /\ forall i : nat, i < m ->
              Py.contains "RESP_OK"
                (rx (target_of ["boot"; line_device_id; line_status])
                   (rd (target_of ["boot"; line_device_id; line_status]) + i))
              = false)
        \/ (exists j : nat,
              m = S j
              /\ Py.contains "RESP_OK"
                   (rx (target_of ["boot"; line_device_id; line_status])
                      (rd (target_of ["boot"; line_device_id; line_status]) + j))
                 = true
              /\ r = response_body
                       (rx (target_of ["boot"; line_device_id; line_status])
                          (rd (target_of ["boot"; line_device_id; line_status])
                           + j)))).
Proof.
  apply (read_response_returns 3 4
           (target_of ["boot"; line_device_id; line_status])).
  - lia.
  - apply le_n.
Defined.

(** X5.  With a negative budget [read_response] never gives up: on a
    stream without the marker no number of iterations ends it. *)
Theorem read_response_negative_budget :
  forall (max_tries : Z) (fuel : nat) (tg : target),
    (max_tries < 0)%Z ->
    (forall i : nat, Py.contains "RESP_OK" (rx tg (rd tg + i)) = false) ->
    read_response fuel max_tries tg = None.
Proof.
  intros n fuel tg Hn Hs. unfold read_response.
  assert (G : forall (fuel : nat) (it : Z) (tg : target),
             (0 <= it)%Z ->
             (forall i : nat, Py.contains "RESP_OK" (rx tg (rd tg + i)) = false) ->
             read_loop fuel n it tg = None).
  { clear fuel tg Hs. induction fuel as [|fuel IH]; intros it tg Hit Hs;
      [reflexivity|].
    cbn [read_loop]. destruct (Z.eqb_spec it n) as [|_]; [lia|]. cbn [negb].
    unfold readline.
    pose proof (Hs 0) as H0. rewrite Nat.add_0_r in H0. rewrite H0.
    apply IH; [lia|]. intros i. cbn [rx rd].
    replace (S (rd tg) + i) with (rd tg + S i) by lia. apply Hs. }
  now apply G.
Qed.

Lemma read_response_negative_budget_witness :
  read_response 500 (-1) (target_of ["boot"]) = None.
Proof.
  apply (read_response_negative_budget (-1) 500 (target_of ["boot"])).
  - reflexivity.
  - intros [|[|i]]; reflexivity.
Defined.

End Readers.

Section ResultReader.

Import OTMLDSA.

Local Open Scope nat_scope.

(** A line without [RESP_OK:] has no second piece. *)
Lemma response_body_no_colon (line : string) :
  Py.contains "RESP_OK:" line = false -> response_body line = Raise IndexError.
Proof.
  intros H. unfold response_body. now rewrite (split_no_sep _ _ H).
Qed.

(** X6.  A line that carries the marker [RESP_OK] without the colon behind
    it makes both readers raise [IndexError], not the acknowledge error,
    on that line. *)
Theorem readers_marker_without_colon :
  forall (json_loads : string -> option pyobj) (budget : Z) (k fuel : nat)
         (tg : target),
    (Z.of_nat k < budget)%Z ->
    (forall i : nat, i < k ->
       Py.contains "RESP_OK" (rx tg (rd tg + i)) = false) ->
    Py.contains "RESP_OK" (rx tg (rd tg + k)) = true ->
    Py.contains "RESP_OK:" (rx tg (rd tg + k)) = false ->
    k < fuel ->
    ml_dsa_sca_read_response json_loads fuel budget tg
    = Some (Raise IndexError, skip_lines (S k) tg)
    /\ read_response fuel budget tg
       = Some (Raise IndexError, skip_lines (S k) tg).
Proof.
  intros json_loads n k fuel tg Hn Hs Hm Hc Hf.
  assert (Et : {| rx := rx tg; rd := S (rd tg + k); done := done tg;
                  polls := polls tg; log := log tg |} = skip_lines (S k) tg)
    by (unfold skip_lines; f_equal; lia).
  split.
  - unfold ml_dsa_sca_read_response.
    replace fuel with (k + S (fuel - S k)) by lia.
    rewrite read_result_loop_silent; [| exact Hs | lia].
    cbn [read_result_loop].
    destruct (Z.ltb_spec (0 + Z.of_nat k) n) as [_|]; [|lia].
    unfold readline. cbn [skip_lines rx rd done polls log].
    now rewrite Hm, (response_body_no_colon _ Hc), Et.
  - unfold read_response.
    replace fuel with (k + S (fuel - S k)) by lia.
    rewrite read_loop_unmet; [| exact Hs | intros j Hj; lia].
    cbn [read_loop].
    destruct (Z.eqb_spec (0 + Z.of_nat k) n) as [|_]; [lia|]. cbn [negb].
    unfold readline. cbn [skip_lines rx rd done polls log].
    now rewrite Hm, (response_body_no_colon _ Hc), Et.
Qed.

Lemma readers_marker_without_colon_witness :
  ml_dsa_sca_read_response Json.loads 2 100 (target_of ["boot"; "RESP_OK done"])
  = Some (Raise IndexError, skip_lines 2 (target_of ["boot"; "RESP_OK done"]))
  /\ read_response 2 100 (target_of ["boot"; "RESP_OK done"])
     = Some (Raise IndexError, skip_lines 2 (target_of ["boot"; "RESP_OK done"])).
Proof.
  apply (readers_marker_without_colon Json.loads 100 1 2
           (target_of ["boot"; "RESP_OK done"])).
  - reflexivity.
  - intros [|i] Hi; [reflexivity | lia].
  - reflexivity.
  - reflexivity.
  - lia.
Defined.

(** X7.  Lines that carry the marker and whose body does not mention
    [result] use up no attempt: on a stream of such lines
    [ml_dsa_sca_read_response] does not return, whatever its budget of
    attempts and the number of iterations allowed. *)
Theorem ml_dsa_sca_read_response_unbounded :
  forall (json_loads : string -> option pyobj) (num_attempts : Z)
         (fuel : nat) (tg : target),
    (0 < num_attempts)%Z ->
    (forall i : nat,
       Py.contains "RESP_OK" (rx tg (rd tg + i)) = true
       /\ passed_over (rx tg (rd tg + i)) = true) ->
    ml_dsa_sca_read_response json_loads fuel num_attempts tg = None.
Proof.
  intros json_loads n fuel tg Hn. unfold ml_dsa_sca_read_response.
  revert tg. induction fuel as [|fuel IH]; intros tg Hs; [reflexivity|].
  destruct (Hs 0) as [Hm Hp]. rewrite Nat.add_0_r in Hm, Hp.
  unfold passed_over in Hp. rewrite Hm in Hp.
  destruct (response_body (rx tg (rd tg))) as [body|] eqn:Hb; [|discriminate].
  rewrite (read_result_loop_marker json_loads _ _ _ _ body) by assumption.
  apply negb_true_iff in Hp. rewrite Hp.
  apply IH. intros i. cbn [skip_lines rx rd].
  replace (rd tg + 1 + i) with (rd tg + S i) by lia. apply Hs.
Qed.

Lemma ml_dsa_sca_read_response_unbounded_witness :
  ml_dsa_sca_read_response Json.loads 1000 100 (target_repeating line_status)
  = None.
Proof.
  apply (ml_dsa_sca_read_response_unbounded Json.loads 100 1000
           (target_repeating line_status)).
  - reflexivity.
  - intros i. split; reflexivity.
Defined.

(** X8.  A result is found behind any number of lines that are passed
    over, as long as fewer than [num_attempts] of them lack the marker: the
    value under [result] of the first line whose body mentions [result] is
    returned, and that line is the last one read. *)
Theorem ml_dsa_sca_read_response_after_noise :
  forall (json_loads : string -> option pyobj) (num_attempts : Z)
         (k fuel : nat) (tg : target) (json_string : string) (o v : pyobj),
    (forall i : nat, i < k -> passed_over (rx tg (rd tg + i)) = true) ->
    (attempts_used (rx tg) (rd tg) k < num_attempts)%Z ->
    Py.contains "RESP_OK" (rx tg (rd tg + k)) = true ->
    response_body (rx tg (rd tg + k)) = Ok json_string ->
    Py.contains "result" json_string = true ->
    json_loads json_string = Some o ->
    getitem o (str "result") = Some v ->
    k < fuel ->
    ml_dsa_sca_read_response json_loads fuel num_attempts tg
    = Some (Ok v, skip_lines (S k) tg).
Proof.
  intros json_loads n k fuel tg body o v Hp Hu Hm Hb Hr Ho Hv Hf.
  replace fuel with (k + S (fuel - S k)) by lia.
  rewrite ml_dsa_sca_read_response_reach by assumption.
  rewrite (read_result_loop_marker json_loads _ _ _ _ body);
    [| assumption | exact Hm | exact Hb].
  now rewrite skip_lines_skip, Nat.add_1_r, Hr, Ho, Hv.
Qed.

Lemma ml_dsa_sca_read_response_after_noise_witness :
  ml_dsa_sca_read_response Json.loads 4 2
    (target_of ["boot"; line_status; line_not_json; line_result_42])
  = Some (Ok (PyInt 42),
          skip_lines 4
            (target_of ["boot"; line_status; line_not_json; line_result_42])).
Proof.
  apply (ml_dsa_sca_read_response_after_noise Json.loads 2 3 4
           (target_of ["boot"; line_status; line_not_json; line_result_42])
           ("{" ++ Py.dq ++ "result" ++ Py.dq ++ ":42}")%string
           (PyDict [(str "result", PyInt 42)]) (PyInt 42)).
  - intros [|[|[|i]]] Hi; [reflexivity | reflexivity | reflexivity | lia].
  - reflexivity.
  - reflexivity.
  - reflexivity.
  - reflexivity.
  - reflexivity.
  - reflexivity.
  - lia.
Defined.

(** X9.  A body that mentions [result] and is parseable, but whose object
    has no key [result] or is no [dict], raises the acknowledge error on
    its line. *)
Theorem ml_dsa_sca_read_response_missing_key :
  forall (json_loads : string -> option pyobj) (num_attempts : Z)
         (k fuel : nat) (tg : target) (json_string : string) (o : pyobj),
    (forall i : nat, i < k -> passed_over (rx tg (rd tg + i)) = true) ->
    (attempts_used (rx tg) (rd tg) k < num_attempts)%Z ->
    Py.contains "RESP_OK" (rx tg (rd tg + k)) = true ->
    response_body (rx tg (rd tg + k)) = Ok json_string ->
    Py.contains "result" json_string = true ->
    json_loads json_string = Some o ->
    getitem o (str "result") = None ->
    k < fuel ->
    ml_dsa_sca_read_response json_loads fuel num_attempts tg
    = Some (Raise ack_error, skip_lines (S k) tg).
Proof.
  intros json_loads n k fuel tg body o Hp Hu Hm Hb Hr Ho Hv Hf.
  replace fuel with (k + S (fuel - S k)) by lia.
  rewrite ml_dsa_sca_read_response_reach by assumption.
  rewrite (read_result_loop_marker json_loads _ _ _ _ body);
    [| assumption | exact Hm | exact Hb].
  now rewrite skip_lines_skip, Nat.add_1_r, Hr, Ho, Hv.
Qed.

Lemma ml_dsa_sca_read_response_missing_key_witness :
  ml_dsa_sca_read_response Json.loads 1 100 (target_of [line_other_key])
  = Some (Raise ack_error, skip_lines 1 (target_of [line_other_key])).
Proof.
  apply (ml_dsa_sca_read_response_missing_key Json.loads 100 0 1
           (target_of [line_other_key])
           ("{" ++ Py.dq ++ "state" ++ Py.dq ++ ":" ++ Py.dq ++ "result"
              ++ Py.dq ++ "}")%string
           (PyDict [(str "state", PyStr (str "result"))])).
  - intros i Hi. lia.
  - reflexivity.
  - reflexivity.
  - reflexivity.
  - reflexivity.
  - reflexivity.
  - reflexivity.
  - lia.
Defined.

(** X10.  Over uJSON, [init] writes its two frames and returns the body of
    the first marker line among the next 30 lines.  Over any other
    protocol it writes nothing, reads nothing and returns [None]. *)
Theorem init_returns_device_id :
  (forall (k fuel : nat) (tg : target) (pre body post : string),
     k < 30 ->
     (forall i : nat, i < k ->
        Py.contains "RESP_OK" (rx tg (rd tg + i)) = false) ->
     rx tg (rd tg + k) = (pre ++ "RESP_OK:" ++ body ++ " CRC:" ++ post)%string ->
     Py.contains "RESP_OK:" pre = false ->
     Py.contains "RESP_OK:" (body ++ " CRC:" ++ post) = false ->
     Py.contains " CRC:" body = false ->
     k < fuel ->
     init Json.dumps (__init__ "ujson") fuel tg
     = Some (Ok (Some body),
             skip_lines (S k)
               (write (Py.dq ++ "Init" ++ Py.dq)
                  (write (Py.dq ++ "MlDsaSca" ++ Py.dq) (sleep 10 tg)))))
  /\
  (forall (json_dumps : pyobj -> string) (protocol : string) (fuel : nat)
          (tg : target),
     protocol <> "ujson" ->
     init json_dumps (__init__ protocol) fuel tg = Some (Ok None, tg)).
Proof.
  split.
  - intros k fuel tg pre body post Hk Hs Hl Hpre Hone Hcrc Hf.
    unfold init, __init__, _ujson_ml_dsa_sca_cmd, write_json.
    cbn [String.eqb simple_serial negb].
    change (encode_ascii (Json.dumps (PyStr (str "MlDsaSca"))))
      with (Ok (Py.dq ++ "MlDsaSca" ++ Py.dq)%string).
    change (encode_ascii (Json.dumps (PyStr (str "Init"))))
      with (Ok (Py.dq ++ "Init" ++ Py.dq)%string).
    cbv iota beta.
    unfold read_response.
    rewrite (read_loop_marker_line 30 k fuel _ pre body post);
      try assumption; [reflexivity | right; lia].
  - intros json_dumps protocol fuel tg Hp.
    unfold init, __init__. cbn [simple_serial].
    destruct (String.eqb_spec protocol "ujson") as [|_]; [contradiction|].
    reflexivity.
Qed.

Lemma init_returns_device_id_witness :
  init Json.dumps (__init__ "ujson") 2 (target_of ["boot"; line_device_id])
  = Some (Ok (Some ("{" ++ Py.dq ++ "device_id" ++ Py.dq ++ ":[1,2]}")%string),
          skip_lines 2
            (write (Py.dq ++ "Init" ++ Py.dq)
               (write (Py.dq ++ "MlDsaSca" ++ Py.dq)
                  (sleep 10 (target_of ["boot"; line_device_id])))))
  /\ init Json.dumps (__init__ "UJSON") 0 (target_of ["boot"])
     = Some (Ok None, target_of ["boot"]).
Proof.
  split.
  - apply (proj1 init_returns_device_id 1 2 (target_of ["boot"; line_device_id])
             "" ("{" ++ Py.dq ++ "device_id" ++ Py.dq ++ ":[1,2]}")%string "99").
    + lia.
    + intros [|i] Hi; [reflexivity | lia].
    + reflexivity.
    + reflexivity.
    + reflexivity.
    + reflexivity.
    + lia.
  - apply (proj2 init_returns_device_id Json.dumps "UJSON" 0 (target_of ["boot"])).
    discriminate.
Defined.

End ResultReader.

(** ** The capture controller on every instrument *)

Section ControllerFurther.

Import Husky.

Local Open Scope nat_scope.

Lemma wait_adc_lock_attrs :
  forall (fuel : nat) (ping_cnt : Z) (s s' : scope_t) (slept slept' : list event)
         (r : outcome unit),
    wait_adc_lock fuel ping_cnt s slept = Some (r, s', slept') ->
    attrs s' = attrs s.
Proof.
  induction fuel as [|fuel IH]; intros c s s' slept slept' r; [discriminate|].
  cbn [wait_adc_lock]. unfold read_adc_locked.
  destruct (adc_locked s (lock_reads s)); cbn [negb].
  - intros [= _ <- _]. reflexivity.
  - destruct (c =? 3)%Z.
    + intros [= _ <- _]. reflexivity.
    + intros H. apply IH in H. exact H.
Qed.

(** X11.  With a Husky, [initialize_scope] returns on every instrument
    within four readings of the lock status and three sleeps of 500 ms: it
    succeeds at the first reading that finds the ADC locked, and raises the
    lock error when the first four readings all find it unlocked. *)
Theorem initialize_scope_returns :
  forall (fuel : nat) (self : t) (dev : scope_t),
    _is_husky dev = true ->
    4 <= fuel ->
    exists (r : outcome t) (k : nat),
      k <= 3
      /\ initialize_scope fuel self dev
         = Some (r, after_reads (S k) (prepared self dev), repeat (Sleep 500) k)
      /\ (forall n : nat, n < k -> adc_locked dev (lock_reads dev + n) = false)
      /\ (if adc_locked dev (lock_reads dev + k)
          then r = Ok (with_scope self (after_reads (S k) (prepared self dev)))
          else k = 3 /\ r = Raise lock_error).
Proof.
  intros fuel self dev Hh Hf.
  assert (E : initialize_scope fuel self dev
              = match wait_adc_lock fuel 0 (prepared self dev) [] with
                | None => None
                | Some (Raise e, s', slept) => Some (Raise e, s', slept)
                | Some (Ok _, s', slept) => Some (Ok (with_scope self s'), s', slept)
                end).
  { unfold initialize_scope. fold (prepared self dev).
    change (_is_husky (setattr "adc.basic_mode" (PyStr (str "rising_edge"))
              (setattr "gain.db" (scope_gain self) dev))) with (_is_husky dev).
    now rewrite Hh. }
  destruct (prepared_adc_locked self dev) as [Ha Hr].
  assert (Hlocked : forall k : nat,
             k <= 3 ->
             (forall n : nat, n < k -> adc_locked dev (lock_reads dev + n) = false) ->
             adc_locked dev (lock_reads dev + k) = true ->
             exists (r : outcome t) (k : nat),
               k <= 3
               /\ initialize_scope fuel self dev
                  = Some (r, after_reads (S k) (prepared self dev),
                          repeat (Sleep 500) k)
               /\ (forall n : nat, n < k ->
                     adc_locked dev (lock_reads dev + n) = false)
               /\ (if adc_locked dev (lock_reads dev + k)
                   then r = Ok (with_scope self
                                  (after_reads (S k) (prepared self dev)))
                   else k = 3 /\ r = Raise lock_error)).
  { intros k Hk Hu Hl.
    exists (Ok (with_scope self (after_reads (S k) (prepared self dev)))), k.
    split; [exact Hk|]. split.
    - rewrite E, (wait_adc_lock_locked k); [reflexivity | exact Hk | | | lia].
      + intros n Hn. rewrite Ha, Hr. now apply Hu.
      + now rewrite Ha, Hr.
    - split; [exact Hu|]. now rewrite Hl. }
  destruct (adc_locked dev (lock_reads dev + 0)) eqn:L0.
  { apply (Hlocked 0); [lia | intros n Hn; lia | exact L0]. }
  destruct (adc_locked dev (lock_reads dev + 1)) eqn:L1.
  { apply (Hlocked 1); [lia | | exact L1].
    intros [|n] Hn; [exact L0 | lia]. }
  destruct (adc_locked dev (lock_reads dev + 2)) eqn:L2.
  { apply (Hlocked 2); [lia | | exact L2].
    intros [|[|n]] Hn; [exact L0 | exact L1 | lia]. }
  destruct (adc_locked dev (lock_reads dev + 3)) eqn:L3.
  { apply (Hlocked 3); [lia | | exact L3].
    intros [|[|[|n]]] Hn; [exact L0 | exact L1 | exact L2 | lia]. }
  assert (Hu : forall n : nat, n < 4 -> adc_locked dev (lock_reads dev + n) = false)
    by (intros [|[|[|[|n]]]] Hn; [exact L0 | exact L1 | exact L2 | exact L3 | lia]).
  exists (Raise lock_error), 3. split; [lia|]. split.
  - rewrite E, wait_adc_lock_timeout; [reflexivity | | exact Hf].
    intros n Hn. rewrite Ha, Hr. now apply Hu.
  - split; [intros n Hn; apply Hu; lia|]. rewrite L3. now split.
Qed.

Lemma initialize_scope_returns_witness :
  exists (r : outcome t) (k : nat),
    k <= 3
    /\ initialize_scope 4 bench_husky (locked_at 1)
       = Some (r, after_reads (S k) (prepared bench_husky (locked_at 1)),
               repeat (Sleep 500) k)
    /\ (forall n : nat, n < k ->
          adc_locked (locked_at 1) (lock_reads (locked_at 1) + n) = false)
    /\ (if adc_locked (locked_at 1) (lock_reads (locked_at 1) + k)
        then r = Ok (with_scope bench_husky
                       (after_reads (S k) (prepared bench_husky (locked_at 1))))
        else k = 3 /\ r = Raise lock_error).
Proof.
  apply (initialize_scope_returns 4 bench_husky (locked_at 1)).
  - reflexivity.
  - apply le_n.
Defined.

(** X12.  The scope that a successful [initialize_scope] binds never
    carries a negative offset: a negative number of offset samples is
    written as the offset 0 and as that many presamples, and without it the
    presamples are left as they were. *)
Theorem initialize_scope_offset :
  forall (fuel : nat) (self h : t) (dev s : scope_t) (slept : list event),
    initialize_scope fuel self dev = Some (Ok h, s, slept) ->
    scope h = Some s
    /\ getattr "adc.offset" s = Some (PyInt (Z.max 0 (offset_samples self)))
    /\ ((offset_samples self < 0)%Z ->
        getattr "adc.presamples" s = Some (PyInt (- offset_samples self)))
    /\ ((0 <= offset_samples self)%Z ->
        getattr "adc.presamples" s = getattr "adc.presamples" dev).
Proof.
  intros fuel self h dev s slept. unfold initialize_scope.
  fold (prepared self dev).
  destruct (negb _); [discriminate|].
  destruct (wait_adc_lock fuel 0 (prepared self dev) [])
    as [[[[u|e] s'] slept']|] eqn:E; try discriminate.
  intros [= <- <- <-]. split; [reflexivity|].
  apply wait_adc_lock_attrs in E.
  unfold getattr. rewrite E. unfold prepared, configure.
  destruct (Z.leb_spec 0 (offset_samples self)); cbn;
    repeat split; try lia; intros; try lia; do 2 f_equal; lia.
Qed.

Lemma initialize_scope_offset_witness :
  getattr "adc.offset"
    (after_reads 1 (prepared bench_plan (locked_at 0))) = Some (PyInt (Z.max 0 (-80)))
  /\ getattr "adc.presamples"
       (after_reads 1 (prepared bench_plan (locked_at 0))) = Some (PyInt 80).
Proof.
  assert (E : initialize_scope 1 bench_plan (locked_at 0)
              = Some (Ok (with_scope bench_plan
                            (after_reads 1 (prepared bench_plan (locked_at 0)))),
                      after_reads 1 (prepared bench_plan (locked_at 0)), []))
    by (vm_compute; reflexivity).
  destruct (initialize_scope_offset 1 bench_plan _ (locked_at 0) _ [] E)
    as (_ & H1 & H2 & _).
  split; [exact H1 | apply H2; reflexivity].
Defined.

End ControllerFurther.

(** ** The capture in single mode, event by event *)

Section CaptureFurther.

Import Husky.

Local Open Scope nat_scope.

Lemma wait_target_done_log :
  forall (k fuel : nat) (i : Z) (tg : target),
    (forall n : nat, n < k -> done tg (polls tg + n) = false) ->
    done tg (polls tg + k) = true ->
    k < fuel ->
    wait_target_done fuel i tg
    = Some {| rx := rx tg; rd := rd tg; done := done tg;
              polls := polls tg + S k;
              log := log tg ++ waiting_log i k |}.
Proof.
  induction k as [|k IH]; intros fuel i tg Hn Hd Hf.
  - destruct fuel as [|fuel]; [lia|].
    cbn [wait_target_done]. unfold is_done.
    rewrite Nat.add_0_r in Hd. rewrite Hd. cbn [negb waiting_log].
    rewrite app_nil_r. do 2 f_equal. lia.
  - destruct fuel as [|fuel]; [lia|].
    cbn [wait_target_done]. unfold is_done.
    pose proof (Hn 0 ltac:(lia)) as H0. rewrite Nat.add_0_r in H0.
    rewrite H0. cbn [negb waiting_log].
    rewrite IH.
    + destruct (100 <? i + 1)%Z; cbn [sleep print emit rx rd done polls log];
        f_equal; f_equal; try lia;
        rewrite <- ?app_assoc; reflexivity.
    + intros n Hlt.
      destruct (100 <? i + 1)%Z; cbn [sleep print emit done polls];
        replace (S (polls tg) + n) with (polls tg + S n) by lia; apply Hn; lia.
    + destruct (100 <? i + 1)%Z; cbn [sleep print emit done polls];
        replace (S (polls tg) + k) with (polls tg + S k) by lia; exact Hd.
    + lia.
Qed.

Lemma waiting_log_printed :
  forall (k : nat) (i : Z),
    printed (waiting_log i k)
    = repeat "Warning: Target did not finish operation"%string
        (Z.to_nat (Z.min (Z.of_nat k) (i + Z.of_nat k - 100))).
Proof.
  induction k as [|k IH]; intros i.
  - cbn [waiting_log printed]. destruct (Z.to_nat _) eqn:E; [reflexivity | lia].
  - cbn [waiting_log printed]. destruct (Z.ltb_spec 100 (i + 1)).
    + cbn [app printed]. rewrite IH.
      replace (Z.to_nat (Z.min (Z.of_nat (S k)) (i + Z.of_nat (S k) - 100)))
        with (S (Z.to_nat (Z.min (Z.of_nat k) (i + 1 + Z.of_nat k - 100))))
        by lia.
      reflexivity.
    + cbn [app]. rewrite IH. f_equal. lia.
Qed.

(** X13.  In single mode, with a scope bound and a target that reports done
    for the first time at poll [k], [capture_and_transfer_waves] returns the
    one trace after [k + 1] polls and [k] sleeps of 50 ms.  It prints the
    warning that the target did not finish [k - 100] times (none up to
    [k = 100]), and the capture-timeout warning after them exactly when
    the capture reported a timeout; nothing is written to the target. *)
Theorem capture_and_transfer_waves_single :
  forall (fuel k : nat) (self : t) (s : scope_t) (tg : target),
    scope self = Some s ->
    num_segments self = 1%Z ->
    (forall n : nat, n < k -> done tg (polls tg + n) = false) ->
    done tg (polls tg + k) = true ->
    k < fuel ->
    capture_and_transfer_waves fuel self tg
    = Some (Ok [last_trace s],
            after_wait k
              (if capture_ret s
               then [Print "Warning: Timeout happened during capture"]
               else [])
              tg)
    /\ printed (waiting_log 0 k)
       = repeat "Warning: Target did not finish operation"%string (k - 100)
    /\ frames (waiting_log 0 k) = []
    /\ List.length (waiting_log 0 k) = k + (k - 100).
Proof.
  intros fuel k self s tg Hs Hn Hu Hd Hf.
  split; [|split; [|split]].
  - unfold capture_and_transfer_waves. rewrite Hn, Hs. cbn [Z.eqb Pos.eqb].
    rewrite (wait_target_done_log k fuel 0 tg Hu Hd Hf).
    unfold after_wait.
    destruct (capture_ret s); unfold print, emit; cbn [rx rd done polls log].
    + rewrite <- app_assoc. reflexivity.
    + rewrite app_nil_r. reflexivity.
  - rewrite waiting_log_printed. f_equal. lia.
  - generalize 0%Z. clear. induction k as [|k IH]; intros i; [reflexivity|].
    cbn [waiting_log frames]. destruct (100 <? i + 1)%Z; cbn [app frames]; apply IH.
  - assert (G : forall (k : nat) (i : Z),
               List.length (waiting_log i k)
               = k + Z.to_nat (Z.min (Z.of_nat k) (i + Z.of_nat k - 100))).
    { clear. induction k as [|k IH]; intros i.
      - cbn [waiting_log List.length]. lia.
      - cbn [waiting_log List.length]. rewrite length_app, IH.
        destruct (Z.ltb_spec 100 (i + 1)); cbn [List.length]; lia. }
    rewrite G. lia.
Qed.

Lemma capture_and_transfer_waves_single_witness :
  capture_and_transfer_waves 200
    (with_scope bench_plan timeout_scope) (done_at 102)
  = Some (Ok [[1; 2; 3]%Z],
          after_wait 102 [Print "Warning: Timeout happened during capture"]
            (done_at 102))
  /\ printed (waiting_log 0 102)
     = ["Warning: Target did not finish operation"%string;
        "Warning: Target did not finish operation"%string].
Proof.
  destruct (capture_and_transfer_waves_single 200 102
              (with_scope bench_plan timeout_scope) timeout_scope (done_at 102))
    as (H1 & H2 & _).
  - reflexivity.
  - reflexivity.
  - intros n Hn. cbn [done_at done polls Nat.add]. apply Nat.eqb_neq. lia.
  - reflexivity.
  - lia.
  - split; [exact H1 | exact H2].
Defined.

End CaptureFurther.

(** ** The clock plan on every input *)

Section ClockPlanFurther.

Import PyNum Husky.

Local Open Scope Z_scope.

Lemma round_up_3_least (n m : Z) :
  m mod 3 = 0 -> n <= m -> round_up_3 n <= m.
Proof.
  intros Hm Hle.
  pose proof (round_up_3_multiple n) as Hr.
  pose proof (round_up_3_ge n) as Hb.
  pose proof (Z.div_mod m 3 ltac:(lia)) as Dm.
  pose proof (Z.div_mod (round_up_3 n) 3 ltac:(lia)) as Dr.
  lia.
Qed.

(** X14.  Whatever the arguments, a plan that [__init__] returns has no
    scope, the clock frequency it was given, the sampling rate
    [pll_frequency * adc_mul] and the target frequency
    [pll_frequency * target_clk_mult]; its offset is the count
    [int(offset_cycles * ratio)] as it is, and its number of samples is the
    least multiple of 3 that is not below [int(num_cycles * ratio)], so at
    most 2 above it. *)
Theorem husky_init_plan_shape :
  forall (scope_gain : pyobj)
         (num_cycles num_segments offset_cycles pll_frequency target_clk_mult : Z)
         (h : t),
    __init__ scope_gain num_cycles num_segments offset_cycles pll_frequency
      target_clk_mult = Ok h ->
    scope h = None
    /\ clkgen_freq h = pll_frequency
    /\ sampling_rate h = pll_frequency * adc_mul h
    /\ target_freq h = pll_frequency * target_clk_mult
    /\ Husky.num_segments h = num_segments
    /\ Husky.scope_gain h = scope_gain
    /\ exists (ratio : Q) (raw : Z),
         sampling_target_ratio (sampling_rate h) (target_freq h) = Ok ratio
         /\ samples_of_cycles offset_cycles ratio = Ok (offset_samples h)
         /\ samples_of_cycles num_cycles ratio = Ok raw
         /\ num_samples h mod 3 = 0
         /\ raw <= num_samples h <= raw + 2
         /\ forall m : Z, m mod 3 = 0 -> raw <= m -> num_samples h <= m.
Proof.
  intros g cycles segs off pll mult h. unfold __init__.
  destruct (floordiv_float_int SAMPLING_RATE_MAX pll) as [q|]; [|discriminate].
  cbn [bind].
  destruct (int_of_float q) as [mul|]; [|discriminate].
  cbn [bind].
  destruct (sampling_target_ratio (pll * mul) (pll * mult)) as [ratio|] eqn:Er;
    [|discriminate].
  cbn [bind].
  destruct (samples_of_cycles off ratio) as [o|] eqn:Eo; [|discriminate].
  cbn [bind].
  destruct (samples_of_cycles cycles ratio) as [n|] eqn:En; [|discriminate].
  cbn [bind]. intros [= <-].
  cbn [scope clkgen_freq sampling_rate target_freq Husky.num_segments
       Husky.scope_gain adc_mul offset_samples num_samples].
  repeat (split; [reflexivity|]).
  exists ratio, n.
  split; [exact Er|]. split; [exact Eo|]. split; [exact En|].
  split; [apply round_up_3_multiple|].
  pose proof (round_up_3_ge n) as Hb.
  pose proof (round_up_3_multiple n) as Hr.
  split.
  - split; [lia|].
    pose proof (Z.div_mod (round_up_3 n) 3 ltac:(lia)) as Dr.
    destruct (Z.eq_dec (round_up_3 n) n) as [->|Hne]; [lia|].
    unfold round_up_3 in *.
    pose proof (Z.mod_pos_bound n 3 ltac:(lia)).
    destruct (Z.eqb_spec (n mod 3) 0); cbn [negb] in *; lia.
  - intros m Hm Hle. now apply round_up_3_least.
Qed.

Lemma husky_init_plan_shape_witness :
  scope bench_plan = None
  /\ clkgen_freq bench_plan = 48000000
  /\ sampling_rate bench_plan = 48000000 * adc_mul bench_plan
  /\ target_freq bench_plan = 48000000 * 2
  /\ Husky.num_segments bench_plan = 1
  /\ Husky.scope_gain bench_plan = PyInt 30
  /\ exists (ratio : Q) (raw : Z),
       sampling_target_ratio (sampling_rate bench_plan) (target_freq bench_plan)
       = Ok ratio
       /\ samples_of_cycles (-40) ratio = Ok (offset_samples bench_plan)
       /\ samples_of_cycles 100 ratio = Ok raw
       /\ num_samples bench_plan mod 3 = 0
       /\ raw <= num_samples bench_plan <= raw + 2
       /\ forall m : Z, m mod 3 = 0 -> raw <= m -> num_samples bench_plan <= m.
Proof.
  apply (husky_init_plan_shape (PyInt 30) 100 1 (-40) 48000000 2 bench_plan).
  vm_compute. reflexivity.
Defined.

Lemma Qdiv_int_exact (a b r : Z) :
  b <> 0 -> a = b * r -> (inject_Z a / inject_Z b == inject_Z r)%Q.
Proof.
  intros Hb ->. rewrite inject_Z_mult.
  field. intros H. apply Hb.
  unfold Qeq in H. cbn in H. lia.
Qed.

Lemma samples_of_cycles_int (cycles r : Z) :
  Z.abs cycles < 2 ^ 53 -> Z.abs (cycles * r) < 2 ^ 53 ->
  samples_of_cycles cycles (inject_Z r) = Ok (cycles * r).
Proof.
  intros Hc Hp. unfold samples_of_cycles, mul_int_float.
  rewrite float_of_int_exact by exact Hc. cbn [bind].
  rewrite (fl_int _ (cycles * r)); [| now rewrite inject_Z_mult | exact Hp].
  cbn [int_of_float]. now rewrite Qtrunc_inject_Z.
Qed.

(** X15.  When the target clock multiplier divides the ADC multiplier
    [200000000 / pll_frequency], the counts are exact: with
    [r = adc_mul / target_clk_mult], [__init__] returns the plan whose
    offset is [offset_cycles * r] and whose number of samples is
    [num_cycles * r] moved up to a multiple of 3, for a positive frequency
    and multiplier and for counts whose products with [r] stay below
    [2 ^ 53] in magnitude. *)
Theorem husky_init_integral_ratio :
  forall (scope_gain : pyobj)
         (num_cycles num_segments offset_cycles pll_frequency target_clk_mult r : Z),
    0 < pll_frequency < 2 ^ 53 ->
    0 < target_clk_mult ->
    200000000 / pll_frequency = target_clk_mult * r ->
    Z.abs num_cycles < 2 ^ 53 -> Z.abs (num_cycles * r) < 2 ^ 53 ->
    Z.abs offset_cycles < 2 ^ 53 -> Z.abs (offset_cycles * r) < 2 ^ 53 ->
    __init__ scope_gain num_cycles num_segments offset_cycles pll_frequency
      target_clk_mult
    = Ok {| scope := None;
            Husky.scope_gain := scope_gain;
            clkgen_freq := pll_frequency;
            adc_mul := target_clk_mult * r;
            sampling_rate := pll_frequency * (target_clk_mult * r);
            target_freq := pll_frequency * target_clk_mult;
            offset_samples := offset_cycles * r;
            num_samples := round_up_3 (num_cycles * r);
            Husky.num_segments := num_segments |}.
Proof.
  intros g cycles segs off pll mult r Hp Hm Hr Hc Hcr Ho Hor.
  destruct (adc_mul_exact pll) as [E1 E2]; [lia | lia |].
  rewrite (init_unfold _ _ _ _ _ _ _ _ E1 E2). rewrite Hr.
  assert (Hq : 0 <= 200000000 / pll <= 200000000).
  { split; [apply Z.div_pos; lia|].
    apply Z.div_le_upper_bound; lia. }
  assert (Hr0 : 0 <= r <= 200000000) by nia.
  unfold sampling_target_ratio, truediv_int.
  destruct (Z.eqb_spec (pll * mult) 0) as [|_]; [nia|].
  rewrite (fl_int _ r).
  - cbn [bind].
    rewrite (samples_of_cycles_int off r Ho Hor). cbn [bind].
    rewrite (samples_of_cycles_int cycles r Hc Hcr). reflexivity.
  - apply Qdiv_int_exact; [nia | ring].
  - apply Z.le_lt_trans with 200000000; [lia | reflexivity].
Qed.

Lemma husky_init_integral_ratio_witness :
  __init__ (PyInt 30) 100 1 (-40) 48000000 2 = Ok bench_plan.
Proof.
  apply (husky_init_integral_ratio (PyInt 30) 100 1 (-40) 48000000 2 2);
    try reflexivity; split; reflexivity.
Defined.

Lemma Qtrunc_opp (x : Q) : Qtrunc (- x) = - Qtrunc x.
Proof. unfold Qtrunc. cbn [Qopp Qnum Qden]. apply Z.quot_opp_l. discriminate. Qed.

Lemma samples_of_cycles_opp (cycles : Z) (ratio : Q) :
  samples_of_cycles (- cycles) ratio
  = match samples_of_cycles cycles ratio with
    | Ok n => Ok (- n)
    | Raise e => Raise e
    end.
Proof.
  unfold samples_of_cycles, mul_int_float, float_of_int.
  change (inject_Z (- cycles)) with (- inject_Z cycles)%Q.
  rewrite fl_opp.
  destruct (fl (inject_Z cycles)) as [x|]; cbn [option_map bind]; [|reflexivity].
  assert (E : fl (- x * ratio) = fl (- (x * ratio)))
    by (apply fl_Proper; ring).
  rewrite E, fl_opp.
  destruct (fl (x * ratio)) as [p|]; cbn [option_map int_of_float]; [|reflexivity].
  now rewrite Qtrunc_opp.
Qed.

(** X16.  The offset is an odd function of [offset_cycles]: with the other
    arguments kept, [__init__] on [- offset_cycles] raises what it raises
    on [offset_cycles], and otherwise returns the same plan with the offset
    negated, since [int] rounds towards zero.  The number of presamples
    for a negative offset is so the offset of its mirror image. *)
Theorem husky_init_offset_odd :
  forall (scope_gain : pyobj)
         (num_cycles num_segments offset_cycles pll_frequency target_clk_mult : Z),
    __init__ scope_gain num_cycles num_segments (- offset_cycles) pll_frequency
      target_clk_mult
    = match __init__ scope_gain num_cycles num_segments offset_cycles
              pll_frequency target_clk_mult with
      | Ok h =>
          Ok {| scope := scope h;
                Husky.scope_gain := Husky.scope_gain h;
                clkgen_freq := clkgen_freq h;
                adc_mul := adc_mul h;
                sampling_rate := sampling_rate h;
                target_freq := target_freq h;
                offset_samples := - offset_samples h;
                num_samples := num_samples h;
                Husky.num_segments := Husky.num_segments h |}
      | Raise e => Raise e
      end.
Proof.
  intros g cycles segs off pll mult. unfold __init__.
  destruct (floordiv_float_int SAMPLING_RATE_MAX pll) as [q|]; [|reflexivity].
  cbn [bind].
  destruct (int_of_float q) as [mul|]; [|reflexivity].
  cbn [bind].
  destruct (sampling_target_ratio (pll * mul) (pll * mult)) as [ratio|];
    [|reflexivity].
  cbn [bind]. rewrite samples_of_cycles_opp.
  destruct (samples_of_cycles off ratio) as [o|]; [|reflexivity].
  cbn [bind].
  destruct (samples_of_cycles cycles ratio) as [n|]; reflexivity.
Qed.

End ClockPlanFurther.

(** ** The glitch controller of [husky_vcc.py] *)

Section GlitchController.

Import HuskyVCC.

Local Open Scope nat_scope.

(** X17.  The parameters that [generate_fi_parameters] draws are accepted
    by [arm_trigger]: on an object with a scope it raises nothing, writes
    the first value drawn as [glitch.repeat] and the second, drawn from the
    generator as the first draw left it, as [glitch.ext_offset], and calls
    [arm] once. *)
Theorem generate_then_arm :
  forall (rng : Type)
         (random_float_range : pyobj -> pyobj -> pyobj -> rng -> pyobj * rng)
         (self : t) (s : scope_t) (g : rng),
    scope self = Some s ->
    let width :=
      random_float_range (glitch_width_min self) (glitch_width_max self)
        (glitch_width_step self) g in
    let delay :=
      random_float_range (trigger_delay_min self) (trigger_delay_max self)
        (trigger_step self) (snd width) in
    generate_fi_parameters rng random_float_range self g
    = ([(str "glitch_width", fst width); (str "trigger_delay", fst delay)],
       snd delay)
    /\ exists s' : scope_t,
         arm_trigger self
           (fst (generate_fi_parameters rng random_float_range self g))
         = (Returned tt, with_scope self s')
         /\ getattr "glitch.repeat" s' = Some (fst width)
         /\ getattr "glitch.ext_offset" s' = Some (fst delay)
         /\ calls s' = (calls s ++ [Arm])%list
         /\ _is_husky s' = _is_husky s.
Proof.
  intros rng rfr self s g Hs width delay.
  assert (E : generate_fi_parameters rng rfr self g
              = ([(str "glitch_width", fst width); (str "trigger_delay", fst delay)],
                 snd delay)).
  { unfold generate_fi_parameters. subst delay. subst width.
    destruct (rfr (glitch_width_min self) (glitch_width_max self)
                (glitch_width_step self) g) as [w g1].
    cbn [fst snd].
    destruct (rfr (trigger_delay_min self) (trigger_delay_max self)
                (trigger_step self) g1) as [d g2].
    reflexivity. }
  split; [exact E|].
  rewrite E. cbn [fst]. unfold arm_trigger.
  change (dict_get (str "glitch_width")
            [(str "glitch_width", fst width); (str "trigger_delay", fst delay)])
    with (Some (fst width)).
  rewrite Hs.
  change (dict_get (str "trigger_delay")
            [(str "glitch_width", fst width); (str "trigger_delay", fst delay)])
    with (Some (fst delay)).
  eexists. split; [reflexivity|].
  repeat split.
Qed.

Lemma generate_then_arm_witness :
  generate_fi_parameters nat draw_lower (vcc_object (Some vcc_scope)) 0
  = ([(str "glitch_width", PyInt 5); (str "trigger_delay", PyInt 0)], 2)
  /\ exists s' : scope_t,
       arm_trigger (vcc_object (Some vcc_scope))
         (fst (generate_fi_parameters nat draw_lower
                 (vcc_object (Some vcc_scope)) 0))
       = (Returned tt, with_scope (vcc_object (Some vcc_scope)) s')
       /\ getattr "glitch.repeat" s' = Some (PyInt 5)
       /\ getattr "glitch.ext_offset" s' = Some (PyInt 0)
       /\ calls s' = [Arm]
       /\ _is_husky s' = true.
Proof.
  apply (generate_then_arm nat draw_lower (vcc_object (Some vcc_scope))
           vcc_scope 0).
  reflexivity.
Defined.

(** X18.  [arm_trigger] calls [arm] exactly when both keys are present.
    Without [glitch_width] it raises the [KeyError] and leaves the object
    as it was.  With [glitch_width] but without [trigger_delay] it raises
    the [KeyError] after it has written [glitch.repeat]: the scope carries
    the new width, the old [glitch.ext_offset], and is not armed. *)
Theorem arm_trigger_missing_key :
  forall (self : t) (s : scope_t) (fault_parameters : list (pystr * pyobj)),
    scope self = Some s ->
    match dict_get (str "glitch_width") fault_parameters,
          dict_get (str "trigger_delay") fault_parameters with
    | None, _ =>
        arm_trigger self fault_parameters = (KeyError (str "glitch_width"), self)
    | Some width, None =>
        exists s' : scope_t,
          arm_trigger self fault_parameters
          = (KeyError (str "trigger_delay"), with_scope self s')
          /\ getattr "glitch.repeat" s' = Some width
          /\ getattr "glitch.ext_offset" s' = getattr "glitch.ext_offset" s
          /\ calls s' = calls s
    | Some width, Some delay =>
        exists s' : scope_t,
          arm_trigger self fault_parameters = (Returned tt, with_scope self s')
          /\ getattr "glitch.repeat" s' = Some width
          /\ getattr "glitch.ext_offset" s' = Some delay
          /\ calls s' = (calls s ++ [Arm])%list
    end.
Proof.
  intros self s fp Hs. unfold arm_trigger.
  destruct (dict_get (str "glitch_width") fp) as [w|].
  - rewrite Hs.
    destruct (dict_get (str "trigger_delay") fp) as [d|];
      eexists; (split; [reflexivity|]); repeat split.
  - destruct (dict_get (str "trigger_delay") fp); reflexivity.
Qed.

Lemma arm_trigger_missing_key_witness :
  exists s' : scope_t,
    arm_trigger (vcc_object (Some vcc_scope)) [(str "glitch_width", PyInt 7)]
    = (KeyError (str "trigger_delay"), with_scope (vcc_object (Some vcc_scope)) s')
    /\ getattr "glitch.repeat" s' = Some (PyInt 7)
    /\ getattr "glitch.ext_offset" s' = None
    /\ calls s' = [].
Proof.
  apply (arm_trigger_missing_key (vcc_object (Some vcc_scope)) vcc_scope
           [(str "glitch_width", PyInt 7)]).
  reflexivity.
Defined.



(** X20.  A [reset] that fails does not leave the object as it was in
    every case.  When the version check raises, the object keeps its
    scope.  When the instrument is not a Husky, the [RuntimeError] comes
    after the instrument was bound: the object then holds that instrument
    with nothing written to it, and an [arm_trigger] with both keys writes
    to it and arms it. *)
Theorem reset_failure :
  forall (check_husky : string -> outcome unit) (self : t) (cw_scope : scope_t)
         (fault_parameters : list (pystr * pyobj)) (width delay : pyobj),
    dict_get (str "glitch_width") fault_parameters = Some width ->
    dict_get (str "trigger_delay") fault_parameters = Some delay ->
    match check_husky "1.5.0" with
    | Raise e => reset check_husky self cw_scope = (Raise e, self)
    | Ok _ =>
        _is_husky cw_scope = false ->
        reset check_husky self cw_scope
        = (Raise (RuntimeError "Only ChipWhisperer Husky is supported!"),
           with_scope self cw_scope)
        /\ arm_trigger (snd (reset check_husky self cw_scope)) fault_parameters
           = (Returned tt,
              with_scope self
                (invoke Arm
                   (setattr "glitch.ext_offset" delay
                      (setattr "glitch.repeat" width cw_scope))))
    end.
Proof.
  intros check self dev fp w d Hw Hd. unfold reset, init_husky.
  destruct (check "1.5.0") as [u|e]; [|reflexivity].
  intros Hh. rewrite Hh. cbn [negb]. split; [reflexivity|].
  cbn [snd]. unfold arm_trigger. rewrite Hw, Hd. reflexivity.
Qed.

Lemma reset_failure_witness :
  reset check_passes (vcc_object None) vcc_other_scope
  = (Raise (RuntimeError "Only ChipWhisperer Husky is supported!"),
     vcc_object (Some vcc_other_scope))
  /\ arm_trigger (snd (reset check_passes (vcc_object None) vcc_other_scope))
       [(str "glitch_width", PyInt 9); (str "trigger_delay", PyInt 40)]
     = (Returned tt,
        vcc_object
          (Some (invoke Arm
                   (setattr "glitch.ext_offset" (PyInt 40)
                      (setattr "glitch.repeat" (PyInt 9) vcc_other_scope))))).
Proof.
  apply (reset_failure check_passes (vcc_object None) vcc_other_scope
           [(str "glitch_width", PyInt 9); (str "trigger_delay", PyInt 40)]
           (PyInt 9) (PyInt 40)); reflexivity.
Defined.

End GlitchController.
